(** * storybook-llms-extractor: a shallow embedding of [src/utils.ts]

    The development follows the source file top to bottom: the static asset
    resolver installed by [setupStaticRouting], the extraction run of
    [extractStorybookData], the in-page registry lookup of
    [extractAllStoriesFromStorybook], the prose page extractor, the [<pre>]
    rule of the content renderer and the document generators.

    Conventions.  JavaScript strings are [string]s (byte strings; the
    functions below only inspect ASCII characters).  A value that may be
    [undefined] is an [option].  A call that may throw returns [Exn + A].
    Objects that the code enumerates with [Object.keys], [Object.values] or
    [Object.entries] are association lists in enumeration order. *)

From Stdlib Require Import String Ascii List Bool ZArith Lia.
From Stdlib Require Import Numbers.DecimalString.
Import ListNotations.
Set Warnings "-register-all".
Local Open Scope list_scope.
Local Open Scope string_scope.

(** ** Exceptions *)

Module Exn.

(** The exceptions that the embedded code can raise, by origin. *)
Inductive t : Type :=
| TypeError (msg : string)
| Error (msg : string)
| IOError (code : string).

Definition message (e : t) : string :=
  match e with
  | TypeError m => m
  | Error m => m
  | IOError c => c
  end.

End Exn.

Definition result (A : Type) : Type := (Exn.t + A)%type.

Definition ok {A : Type} (a : A) : result A := inr a.
Definition throw {A : Type} (e : Exn.t) : result A := inl e.

Definition bind {A B : Type} (m : result A) (k : A -> result B) : result B :=
  match m with
  | inl e => inl e
  | inr a => k a
  end.

Notation "x <- m ;; k" := (bind m (fun x => k))
  (at level 61, m at next level, right associativity).
Notation "m ;;; k" := (bind m (fun _ => k))
  (at level 61, right associativity).

(** ** String primitives of the JavaScript runtime *)

Module JsString.

(** [drop_prefix p s] is [Some r] exactly when [s = p ++ r]. *)
Fixpoint drop_prefix (p s : string) : option string :=
  match p, s with
  | EmptyString, _ => Some s
  | String a p', String b s' =>
      if Ascii.eqb a b then drop_prefix p' s' else None
  | String _ _, EmptyString => None
  end.

(** [s.startsWith(p)] *)
Definition startsWith (s p : string) : bool :=
  match drop_prefix p s with
  | Some _ => true
  | None => false
  end.

(** [s.substring(1)] and friends: drop the first [n] characters. *)
Fixpoint substring_from (n : nat) (s : string) : string :=
  match n, s with
  | O, _ => s
  | S n', String _ s' => substring_from n' s'
  | S _, EmptyString => EmptyString
  end.

Definition rev (s : string) : string :=
  string_of_list_ascii (List.rev (list_ascii_of_string s)).

(** [s.endsWith(suffix)] *)
Definition endsWith (s suffix : string) : bool :=
  startsWith (rev s) (rev suffix).

(** [s.includes(sub)], also the test behind the CSS selector
    [[attr*="sub"]]. *)
Fixpoint includes (s sub : string) : bool :=
  if startsWith s sub then true
  else match s with
       | EmptyString => false
       | String _ s' => includes s' sub
       end.

(** [s.split(sep)] for a non-empty separator.  [skip] counts the
    characters of a separator that has been recognised and is still being
    consumed. *)
Fixpoint split_go (sep : string) (skip : nat) (s : string) : list string :=
  match s with
  | EmptyString => [EmptyString]
  | String c s' =>
      match skip with
      | S k => split_go sep k s'
      | O =>
          if startsWith s sep
          then EmptyString :: split_go sep (String.length sep - 1) s'
          else match split_go sep 0 s' with
               | p :: ps => String c p :: ps
               | [] => [String c EmptyString]
               end
      end
  end.

Definition split (s sep : string) : list string := split_go sep 0 s.

(** [xs.join(sep)] on an array of strings. *)
Definition join (xs : list string) (sep : string) : string :=
  String.concat sep xs.

(** [s.replace(pat, rep)] with a string pattern: the first occurrence
    only. *)
Fixpoint replace (s pat rep : string) : string :=
  match drop_prefix pat s with
  | Some rest => rep ++ rest
  | None =>
      match s with
      | EmptyString => EmptyString
      | String c s' => String c (replace s' pat rep)
      end
  end.

(** [s.replace(/\n/g, ' ')]: every occurrence of one character. *)
Fixpoint replace_all_char (s : string) (c : ascii) (rep : string) : string :=
  match s with
  | EmptyString => EmptyString
  | String a s' =>
      (if Ascii.eqb a c then rep else String a EmptyString)
        ++ replace_all_char s' c rep
  end.

(** [s.replace(/\/$/, '')]: one trailing slash, if there is one. *)
Fixpoint strip_trailing_slash (s : string) : string :=
  match s with
  | EmptyString => EmptyString
  | String c s' =>
      match s' with
      | EmptyString => if Ascii.eqb c "/" then EmptyString else s
      | String _ _ => String c (strip_trailing_slash s')
      end
  end.

(** White space in the sense of [String.prototype.trim], restricted to
    the ASCII range. *)
Definition is_space (c : ascii) : bool :=
  let n := nat_of_ascii c in
  (Nat.eqb n 32 || (Nat.leb 9 n && Nat.leb n 13))%bool.

Fixpoint trimStart (s : string) : string :=
  match s with
  | EmptyString => EmptyString
  | String c s' => if is_space c then trimStart s' else s
  end.

Definition trimEnd (s : string) : string := rev (trimStart (rev s)).

Definition trim (s : string) : string := trimEnd (trimStart s).

Definition nl : string := String (ascii_of_nat 10) EmptyString.
Definition nl_char : ascii := ascii_of_nat 10.

(** Truthiness of a string. *)
Definition truthy (s : string) : bool := negb (String.eqb s EmptyString).

(** [v || ''], [v ?? ''] on a possibly undefined string. *)
Definition or_empty (v : option string) : string :=
  match v with
  | Some s => s
  | None => EmptyString
  end.

(** Truthiness of a possibly undefined string. *)
Definition truthy_opt (v : option string) : bool :=
  match v with
  | Some s => truthy s
  | None => false
  end.

End JsString.

(** ** [node:path], POSIX flavour *)

Module Path.
Import JsString.

(** One step of [normalizeString]: [stack] holds the segments kept so far,
    last one first. *)
Definition push_segment (allowAboveRoot : bool) (stack : list string)
    (seg : string) : list string :=
  if (String.eqb seg "" || String.eqb seg ".")%bool then stack
  else if String.eqb seg ".." then
    match stack with
    | top :: below =>
        if String.eqb top ".." then
          (if allowAboveRoot then seg :: stack else stack)
        else below
    | [] => if allowAboveRoot then [seg] else []
    end
  else seg :: stack.

(** [normalizeString(path, allowAboveRoot, '/', isPosixPathSeparator)]:
    resolves [.] and [..] segments; the result has neither a leading nor a
    trailing slash. *)
Definition normalizeString (path : string) (allowAboveRoot : bool) : string :=
  join (List.rev (fold_left (push_segment allowAboveRoot) (split path "/") []))
       "/".

(** [path.normalize] *)
Definition normalize (path : string) : string :=
  if String.eqb path "" then "."
  else
    let isAbsolute := startsWith path "/" in
    let trailingSeparator := endsWith path "/" in
    let p := normalizeString path (negb isAbsolute) in
    if String.eqb p "" then
      (if isAbsolute then "/" else if trailingSeparator then "./" else ".")
    else
      let p := if trailingSeparator then p ++ "/" else p in
      if isAbsolute then "/" ++ p else p.

(** [path.join(...args)] *)
Definition join_path (args : list string) : string :=
  match filter (fun a => negb (String.eqb a "")) args with
  | [] => "."
  | parts => normalize (join parts "/")
  end.

(** The loop of [path.resolve], over the arguments from the last to the
    first and then the working directory, until an absolute one is met. *)
Fixpoint resolve_loop (rev_args : list string) (resolvedPath : string)
  : string * bool :=
  match rev_args with
  | [] => (resolvedPath, false)
  | p :: rest =>
      if String.eqb p "" then resolve_loop rest resolvedPath
      else
        let resolvedPath := p ++ "/" ++ resolvedPath in
        if startsWith p "/" then (resolvedPath, true)
        else resolve_loop rest resolvedPath
  end.

(** [path.resolve(...args)] in a process whose working directory is
    [cwd]. *)
Definition resolve (cwd : string) (args : list string) : string :=
  let '(resolvedPath, resolvedAbsolute) :=
    resolve_loop (List.rev args ++ [cwd])%list "" in
  let p := normalizeString resolvedPath (negb resolvedAbsolute) in
  if resolvedAbsolute then "/" ++ p
  else if String.eqb p "" then "." else p.

(** The path component that [extname] inspects: the last non-empty
    segment, trailing slashes being ignored. *)
Definition last_component (path : string) : string :=
  match filter (fun a => negb (String.eqb a "")) (List.rev (split path "/")) with
  | b :: _ => b
  | [] => ""
  end.

(** Splits a component at its last dot: what precedes it, and the dot
    with what follows. *)
Fixpoint split_last_dot (b : string) : option (string * string) :=
  match b with
  | EmptyString => None
  | String c b' =>
      match split_last_dot b' with
      | Some (pre, ext) => Some (String c pre, ext)
      | None => if Ascii.eqb c "." then Some (EmptyString, b) else None
      end
  end.

(** [path.extname]: from the last dot of the last component to its end;
    empty when there is no dot, when the dot opens the component, and for
    the component [..]. *)
Definition extname (path : string) : string :=
  let b := last_component path in
  match split_last_dot b with
  | None => ""
  | Some (pre, ext) =>
      if String.eqb pre "" then ""
      else if String.eqb b ".." then ""
      else ext
  end.

End Path.

(** ** Static asset resolver ([getContentType], [setupStaticRouting]) *)

Module StaticRouting.
Import JsString.

(** The readable file tree: what a path designates, if anything.
    Symbolic links are not part of the model. *)
Inductive FsEntry : Type :=
| File (content : string)
| Directory.

Definition FileSystem : Type := string -> option FsEntry.

(** [existsSync] *)
Definition existsSync (fs : FileSystem) (p : string) : bool :=
  match fs p with
  | Some _ => true
  | None => false
  end.

(** [readFile]: rejects on a missing path and on a directory. *)
Definition readFile (fs : FileSystem) (p : string) : result string :=
  match fs p with
  | Some (File content) => ok content
  | Some Directory => throw (Exn.IOError "EISDIR")
  | None => throw (Exn.IOError "ENOENT")
  end.

(** File system accesses performed while one request is served. *)
Inductive FsAccess : Type :=
| Stat (p : string)
| Read (p : string).

Definition contentTypes : list (string * string) :=
  [ (".html", "text/html");
    (".js", "application/javascript");
    (".css", "text/css");
    (".json", "application/json");
    (".png", "image/png");
    (".jpg", "image/jpeg");
    (".jpeg", "image/jpeg");
    (".gif", "image/gif");
    (".svg", "image/svg+xml");
    (".ico", "image/x-icon");
    (".woff", "font/woff");
    (".woff2", "font/woff2");
    (".ttf", "font/ttf");
    (".eot", "application/vnd.ms-fontobject") ].

Fixpoint lookup {A : Type} (k : string) (kvs : list (string * A)) : option A :=
  match kvs with
  | [] => None
  | (k', v) :: rest => if String.eqb k k' then Some v else lookup k rest
  end.

(** [getContentType] *)
Definition getContentType (ext : string) : string :=
  match lookup ext contentTypes with
  | Some t => if truthy t then t else "application/octet-stream"
  | None => "application/octet-stream"
  end.

Record Response : Type := mkResponse {
  status : Z;
  contentType : option string;
  body : string;
  headers : list (string * string)
}.

Definition corsHeaders : list (string * string) :=
  [ ("Access-Control-Allow-Origin", "*");
    ("Access-Control-Allow-Methods", "GET, POST, PUT, DELETE, OPTIONS");
    ("Access-Control-Allow-Headers", "Content-Type, Authorization") ].

Definition notFound : Response := mkResponse 404 None "File not found" [].
Definition serverError : Response := mkResponse 500 None "Internal server error" [].

(** The path that the route handler looks up: [url.pathname] without its
    first slash, completed with [index.html] when it has no extension,
    resolved against [distPath]. *)
Definition requestedPath (cwd distPath pathname : string) : string :=
  let filePath :=
    if startsWith pathname "/" then substring_from 1 pathname else pathname in
  let filePath :=
    if truthy (Path.extname filePath) then filePath
    else Path.join_path [filePath; "index.html"] in
  Path.resolve cwd [distPath; filePath].

(** The handler that [setupStaticRouting] registers for every request,
    as a function of the [pathname] of the requested URL.  It returns the
    response passed to [route.fulfill] and the file system accesses it
    made, in order. *)
Definition setupStaticRouting (cwd : string) (fs : FileSystem)
    (distPath pathname : string) : Response * list FsAccess :=
  let fullPath := requestedPath cwd distPath pathname in
  if existsSync fs fullPath then
    if startsWith fullPath (Path.resolve cwd [distPath]) then
      match readFile fs fullPath with
      | inr content =>
          (mkResponse 200 (Some (getContentType (Path.extname fullPath)))
                      content corsHeaders,
           [Stat fullPath; Read fullPath])
      | inl _ => (serverError, [Stat fullPath; Read fullPath])
      end
    else (notFound, [Stat fullPath])
  else (notFound, [Stat fullPath]).

End StaticRouting.

(** ** Plain data and [JSON.stringify] *)

Module Json.
Import JsString.

(** Data as it crosses from the page to the host process: the JSON fragment
    of JavaScript values, with [undefined].  Numbers are integers; an
    object is its list of own properties in enumeration order. *)
Inductive JSValue : Type :=
| VUndefined
| VNull
| VBool (b : bool)
| VNum (n : Z)
| VStr (s : string)
| VArr (items : list JSValue)
| VObj (props : list (string * JSValue)).

(** [ToBoolean] *)
Definition truthy (v : JSValue) : bool :=
  match v with
  | VUndefined | VNull => false
  | VBool b => b
  | VNum n => negb (Z.eqb n 0)
  | VStr s => JsString.truthy s
  | VArr _ | VObj _ => true
  end.

Definition nullish (v : JSValue) : bool :=
  match v with
  | VUndefined | VNull => true
  | _ => false
  end.

Fixpoint lookup (k : string) (props : list (string * JSValue)) : JSValue :=
  match props with
  | [] => VUndefined
  | (k', v) :: rest => if String.eqb k k' then v else lookup k rest
  end.

(** [v.k] for a named (non-index) property [k] of a value that is neither
    [null] nor [undefined]. *)
Definition get (v : JSValue) (k : string) : JSValue :=
  match v with
  | VObj props => lookup k props
  | _ => VUndefined
  end.

(** [v?.k] *)
Definition get_opt (v : JSValue) (k : string) : JSValue :=
  if nullish v then VUndefined else get v k.

(** [v?.[0]] *)
Definition first_opt (v : JSValue) : JSValue :=
  match v with
  | VArr (x :: _) => x
  | VStr (String c _) => VStr (String c EmptyString)
  | VObj props => lookup "0" props
  | _ => VUndefined
  end.

Definition dquote : string := String (ascii_of_nat 34) EmptyString.
Definition backslash : string := String (ascii_of_nat 92) EmptyString.

Definition hex_digit (n : nat) : string :=
  String (nth n (list_ascii_of_string "0123456789abcdef") "0"%char) EmptyString.

(** One character of [QuoteJSONString]. *)
Definition escape_char (c : ascii) : string :=
  let n := nat_of_ascii c in
  if Nat.eqb n 34 then backslash ++ dquote
  else if Nat.eqb n 92 then backslash ++ backslash
  else if Nat.eqb n 8 then backslash ++ "b"
  else if Nat.eqb n 9 then backslash ++ "t"
  else if Nat.eqb n 10 then backslash ++ "n"
  else if Nat.eqb n 12 then backslash ++ "f"
  else if Nat.eqb n 13 then backslash ++ "r"
  else if Nat.ltb n 32 then
    backslash ++ "u00" ++ hex_digit (n / 16) ++ hex_digit (n mod 16)
  else String c EmptyString.

Fixpoint escape (s : string) : string :=
  match s with
  | EmptyString => EmptyString
  | String c s' => escape_char c ++ escape s'
  end.

Definition quote (s : string) : string := dquote ++ escape s ++ dquote.

Definition number_to_string (n : Z) : string :=
  NilZero.string_of_int (Z.to_int n).

(** [JSON.stringify(v)]; [None] is the result [undefined]. *)
Fixpoint stringify (v : JSValue) : option string :=
  match v with
  | VUndefined => None
  | VNull => Some "null"
  | VBool b => Some (if b then "true" else "false")
  | VNum n => Some (number_to_string n)
  | VStr s => Some (quote s)
  | VArr items =>
      Some ("[" ++ join (map (fun x => match stringify x with
                                      | Some t => t
                                      | None => "null"
                                      end) items) ","
                ++ "]")
  | VObj props =>
      Some ("{" ++ join (flat_map (fun p => match stringify (snd p) with
                                           | Some t => [quote (fst p) ++ ":" ++ t]
                                           | None => []
                                           end) props) ","
                ++ "}")
  end.

End Json.

(** ** The item shape ([./types], as [utils.ts] reads it) *)

Module Types.
Import Json.

(** Modelled from the spec: the declarations of [./types] ([Args],
    [StorybookStoreItem], [StorybookComponent], [StorybookComponentProp])
    are not among the sources.  The records below have the fields of the
    data model of the specification, under the names by which [utils.ts]
    reads them; a field that the code reads through [?.], [??] or [||] is
    optional. *)

(** Modelled from the spec: [parameters.docs], a per-component and a
    per-story description and the source text of a story. *)
Record Docs : Type := mkDocs {
  description_component : option string;
  description_story : option string;
  source_originalSource : option string
}.

Definition noDocs : Docs := mkDocs None None None.

(** Modelled from the spec: [story.parameters], with the [docsOnly] flag
    and the [fullSource] of a prose page. *)
Record StoryParameters : Type := mkStoryParameters {
  fileName : option string;
  docs : option Docs;
  docsOnly : option bool;
  fullSource : option string
}.

Definition noParameters : StoryParameters :=
  mkStoryParameters None None None None.

(** Modelled from the spec: one story variant, [{id, name, parameters}]. *)
Record Story : Type := mkStory {
  story_id : string;
  story_name : option string;
  parameters : StoryParameters
}.

(** Modelled from the spec: one entry of [__docgenInfo.props],
    [{type, description, defaultValue, required}]; the default value is a
    string or an object with a [value]. *)
Inductive DocgenDefault : Type :=
| DefaultString (s : string)
| DefaultObject (value : option string).

Record DocgenProp : Type := mkDocgenProp {
  arg_description : option string;
  arg_type : JSValue;
  arg_defaultValue : option DocgenDefault;
  arg_required : option bool
}.

Record DocgenInfo : Type := mkDocgenInfo {
  docgen_description : option string;
  docgen_props : option (list (string * DocgenProp))
}.

(** Modelled from the spec: [StorybookComponent], a component or
    subcomponent with its doc metadata. *)
Record StorybookComponent : Type := mkComponent {
  __docgenInfo : option DocgenInfo
}.

(** Modelled from the spec: [StorybookComponentProp], a row of the props
    table. *)
Record StorybookComponentProp : Type := mkProp {
  prop_name : string;
  prop_description : string;
  prop_type : JSValue;
  prop_defaultValue : string;
  prop_required : bool
}.

(** Modelled from the spec: [item.meta]; [meta_fileName] and [meta_docs]
    stand for [meta.parameters.fileName] and [meta.parameters.docs]. *)
Record Meta : Type := mkMeta {
  id : string;
  title : string;
  meta_fileName : string;
  meta_docs : option Docs;
  component : option StorybookComponent;
  subcomponents : option (list (string * option StorybookComponent))
}.

(** Modelled from the spec: [StorybookStoreItem].  [stories] is [None] for
    an item of the raw registry that has no stories collection. *)
Record StorybookStoreItem : Type := mkItem {
  meta : Meta;
  stories : option (list (string * Story))
}.

(** Modelled from the spec: the run configuration [Args] with its defaults
    filled in ([Required<Args>]), and the entries of [refs]. *)
Record Ref : Type := mkRef { ref_title : string; ref_url : string }.

Record Args : Type := mkArgs {
  distPath : string;
  summaryBaseUrl : string;
  summaryTitle : string;
  summaryDescription : string;
  refs : list Ref
}.

(** [Object.values(o)]: a [TypeError] on [undefined]. *)
Definition Object_values {A : Type} (o : option (list (string * A)))
  : result (list A) :=
  match o with
  | Some entries => ok (map snd entries)
  | None => throw (Exn.TypeError "Cannot convert undefined or null to object")
  end.

(** Interpolation of a possibly undefined string into a template. *)
Definition interpolate (v : option string) : string :=
  match v with
  | Some s => s
  | None => "undefined"
  end.

End Types.

(** ** Document generators: per-item plain text *)

Module Generators.
Import JsString Json Types.

Fixpoint mapM {A B : Type} (f : A -> result B) (xs : list A) : result (list B) :=
  match xs with
  | [] => ok []
  | x :: rest =>
      y <- f x ;;
      ys <- mapM f rest ;;
      ok (y :: ys)
  end.

(** The text of one entry of an [enum] or [union] value list:
    [typeof v.value === 'string' ? v.value : JSON.stringify(v.value)], as
    [join] then renders it. *)
Definition entryText (v : JSValue) : result string :=
  if nullish v
  then throw (Exn.TypeError "Cannot read properties of null or undefined (reading 'value')")
  else match get v "value" with
       | VStr s => ok s
       | other => ok (or_empty (stringify other))
       end.

Definition valueListText (value : JSValue) : result string :=
  match value with
  | VArr entries =>
      texts <- mapM entryText entries ;;
      ok (join texts " ")
  | _ => ok ""
  end.

Definition isArray (v : JSValue) : bool :=
  match v with
  | VArr _ => true
  | _ => false
  end.

(** [stringifyPropType].  The inner [fix] is the recursive call of the
    [array] case on the [value] property of the descriptor. *)
Fixpoint stringifyPropType (type : JSValue) : result string :=
  if negb (truthy type) then ok ""
  else
    match type with
    | VStr s => ok s
    | VObj props =>
        match lookup "name" props with
        | VStr name =>
            let value := lookup "value" props in
            if (String.eqb name "enum" && isArray value)%bool then
              valueListText value
            else if (String.eqb name "union" && isArray value)%bool then
              valueListText value
            else if (String.eqb name "array" && truthy value)%bool then
              element <-
                (fix of_value (l : list (string * JSValue)) : result string :=
                   match l with
                   | [] => ok "undefined"
                   | (k, v) :: rest =>
                       if String.eqb "value" k then stringifyPropType v
                       else of_value rest
                   end) props ;;
              ok (element ++ "[]")
            else if (String.eqb name "signature"
                     && match get_opt (first_opt value) "value" with
                        | VStr f => String.eqb f "function"
                        | _ => false
                        end)%bool then
              ok "function"
            else ok name
        | _ => ok (interpolate (stringify type))
        end
    | _ => ok (interpolate (stringify type))
    end.

(** The recursive call of the [array] case on its own: the rendering of
    the [value] property of a descriptor. *)
Fixpoint stringifyValueProperty (props : list (string * JSValue)) : result string :=
  match props with
  | [] => ok "undefined"
  | (k, v) :: rest =>
      if String.eqb "value" k then stringifyPropType v
      else stringifyValueProperty rest
  end.

(** [extractStoryDescription] *)
Definition extractStoryDescription (story : StorybookStoreItem) : option string :=
  match meta_docs (meta story) with
  | Some d =>
      match description_component d with
      | Some text => if JsString.truthy text then Some text else None
      | None => None
      end
  | None => None
  end.

(** The row built from one entry of [docgen.props]. *)
Definition propOfArg (name : string) (arg : DocgenProp) : StorybookComponentProp :=
  mkProp name
    (or_empty (arg_description arg))
    (if nullish (arg_type arg) then VObj [] else arg_type arg)
    (match arg_defaultValue arg with
     | Some (DefaultString s) => s
     | Some (DefaultObject (Some v)) => v
     | Some (DefaultObject None) => ""
     | None => ""
     end)
    (match arg_required arg with
     | Some b => b
     | None => false
     end).

(** [extractComponentProps] *)
Definition extractComponentProps (component : option StorybookComponent)
  : list StorybookComponentProp :=
  match component with
  | Some c =>
      match __docgenInfo c with
      | Some docgen =>
          match docgen_props docgen with
          | Some props =>
              map (fun entry => propOfArg (fst entry) (snd entry))
                  (filter (fun entry => negb (String.eqb (fst entry) "children"))
                          props)
          | None => []
          end
      | None => []
      end
  | None => []
  end.

Definition tableRow (prop : StorybookComponentProp) : result string :=
  type <- stringifyPropType (prop_type prop) ;;
  ok ("| " ++ join [ "`" ++ prop_name prop ++ "`";
                     "`" ++ type ++ "`";
                     if prop_required prop then "Yes" else "No";
                     prop_defaultValue prop;
                     replace_all_char (prop_description prop) nl_char " " ]
                   " | "
           ++ " |").

(** [generateComponentPropsTable] *)
Definition generateComponentPropsTable (props : list StorybookComponentProp)
  : result (list string) :=
  match props with
  | [] => ok []
  | _ =>
      rows <- mapM tableRow props ;;
      ok (["";
           "| Name | Type | Required | Default | Description |";
           "|------|------|----------|---------|-------------|"]
            ++ rows ++ [""])%list
  end.

(** [s.parameters?.docsOnly], as a condition. *)
Definition isDocsOnly (s : Story) : bool :=
  match docsOnly (parameters s) with
  | Some b => b
  | None => false
  end.

(** The lines pushed for one entry of [meta.subcomponents]. *)
Definition subcomponentLines (entry : string * option StorybookComponent)
  : result (list string) :=
  let '(name, subcomponent) := entry in
  match subcomponent with
  | Some sub =>
      match __docgenInfo sub with
      | Some docgen =>
          let subcomponentProps := extractComponentProps subcomponent in
          table <-
            match subcomponentProps with
            | [] => ok []
            | _ =>
                rows <- generateComponentPropsTable subcomponentProps ;;
                ok (["#### Props"; ""] ++ rows ++ [""])%list
            end ;;
          ok ([""; ("### " ++ name)%string; ""; or_empty (docgen_description docgen); ""]
                ++ table)%list
      | None => ok []
      end
  | None => ok []
  end.

(** [s.parameters?.fullSource ?? s.parameters.docs?.source?.originalSource] *)
Definition exampleSource (s : Story) : option string :=
  match fullSource (parameters s) with
  | Some text => Some text
  | None =>
      match docs (parameters s) with
      | Some d => source_originalSource d
      | None => None
      end
  end.

Definition exampleDescription (s : Story) : option string :=
  match docs (parameters s) with
  | Some d => description_story d
  | None => None
  end.

(** The lines pushed for one example. *)
Definition exampleLines (s : Story) : list string :=
  ([""; ("### " ++ interpolate (story_name s))%string; ""]
     ++ (if truthy_opt (exampleDescription s)
         then [or_empty (exampleDescription s); ""] else [])
     ++ (if truthy_opt (exampleSource s)
         then ["```tsx"; trim (or_empty (exampleSource s)); "```"] else []))%list.

Definition examplesSection (stories : list Story) : list string :=
  match stories with
  | [] => []
  | _ => (["## Examples"; ""] ++ flat_map exampleLines stories)%list
  end.

(** [generateFullFileContentFromStory] *)
Definition generateFullFileContentFromStory (item : StorybookStoreItem)
  : result (list string) :=
  stories <- Object_values (Types.stories item) ;;
  let isMDXPage := forallb isDocsOnly stories in
  if isMDXPage then
    ok (filter JsString.truthy
               (map (fun s => or_empty (fullSource (parameters s))) stories))
  else
    let heading := ["# " ++ title (meta item); ""] in
    let description :=
      match extractStoryDescription item with
      | Some text => [text; ""]
      | None => []
      end in
    let props := extractComponentProps (component (meta item)) in
    propsSection <-
      match props with
      | [] => ok []
      | _ =>
          table <- generateComponentPropsTable props ;;
          ok (["## Props"; ""] ++ table ++ [""])%list
      end ;;
    subcomponentsSection <-
      match subcomponents (meta item) with
      | Some entries =>
          sections <- mapM subcomponentLines entries ;;
          ok (["## Subcomponents"; ""] ++ List.concat sections)%list
      | None => ok []
      end ;;
    ok (heading ++ description ++ propsSection ++ subcomponentsSection
          ++ examplesSection stories)%list.

(** The text that [writeFullDocsFiles] writes to [llms/{id}.txt]:
    [txtContent.join('\n')]. *)
Definition txtFileContent (item : StorybookStoreItem) : result string :=
  txtContent <- generateFullFileContentFromStory item ;;
  ok (join txtContent nl).

End Generators.

(** ** The in-page registry lookup ([extractAllStoriesFromStorybook]) *)

Module Registry.
Import JsString Json.

(** Values that live in the page: plain data, objects, and functions.  A
    function is modelled by what awaiting a call of it yields and by the
    properties that the call assigns on its receiver. *)
Inductive PageValue : Type :=
| PData (v : JSValue)
| PFun (outcome : Exn.t + JSValue) (writes : list (string * PageValue))
| PObj (props : list (string * PageValue)).

Definition ptruthy (v : PageValue) : bool :=
  match v with
  | PData d => truthy d
  | PFun _ _ | PObj _ => true
  end.

Definition isFunction (v : PageValue) : bool :=
  match v with
  | PFun _ _ => true
  | _ => false
  end.

Fixpoint plookup (k : string) (props : list (string * PageValue)) : PageValue :=
  match props with
  | [] => PData VUndefined
  | (k', v) :: rest => if String.eqb k k' then v else plookup k rest
  end.

(** [v.k] on a truthy value, for a named property. *)
Definition pget (v : PageValue) (k : string) : PageValue :=
  match v with
  | PObj props => plookup k props
  | PData d => PData (get d k)
  | PFun _ _ => PData VUndefined
  end.

Definition index_names (n : nat) : list string :=
  map (fun i => NilZero.string_of_uint (Nat.to_uint i)) (seq 0 n).

(** [Object.keys] of data that is neither [null] nor [undefined]. *)
Definition data_keys (d : JSValue) : list string :=
  match d with
  | VObj props => map fst props
  | VArr items => index_names (List.length items)
  | VStr s => index_names (String.length s)
  | _ => []
  end.

(** [Object.keys(v)] on a truthy value. *)
Definition Object_keys (v : PageValue) : list string :=
  match v with
  | PObj props => map fst props
  | PData d => data_keys d
  | PFun _ _ => []
  end.

Fixpoint chars (s : string) : list string :=
  match s with
  | EmptyString => []
  | String c s' => String c EmptyString :: chars s'
  end.

Definition data_values (d : JSValue) : list JSValue :=
  match d with
  | VObj props => map snd props
  | VArr items => items
  | VStr s => map VStr (chars s)
  | _ => []
  end.

(** [Object.values(v)] on a truthy value. *)
Definition Object_values (v : PageValue) : list PageValue :=
  match v with
  | PObj props => map snd props
  | PData d => map PData (data_values d)
  | PFun _ _ => []
  end.

(** [k in v]: a [TypeError] when [v] is a primitive. *)
Definition has_property (k : string) (v : PageValue) : result bool :=
  match v with
  | PObj props => ok (existsb (fun p => String.eqb k (fst p)) props)
  | PData (VObj props) => ok (existsb (fun p => String.eqb k (fst p)) props)
  | PData (VArr _) | PFun _ _ => ok false
  | PData _ =>
      throw (Exn.TypeError "Cannot use 'in' operator to search for a key in a primitive")
  end.

(** [o[k] = v] on a property list: in place when [k] is there, appended
    otherwise (names that are array indices, which are enumerated first,
    are not told apart). *)
Fixpoint set_property {V : Type} (k : string) (v : V) (props : list (string * V))
  : list (string * V) :=
  match props with
  | [] => [(k, v)]
  | (k', v') :: rest =>
      if String.eqb k k' then (k, v) :: rest
      else (k', v') :: set_property k v rest
  end.

(** The receiver after a call that assigns [writes] on it. *)
Definition assign (receiver : PageValue) (writes : list (string * PageValue))
  : PageValue :=
  match receiver with
  | PObj props =>
      PObj (fold_left (fun acc w => set_property (fst w) (snd w) acc) writes props)
  | other => other
  end.

(** [await receiver.f()] for [f] a function: the value and the receiver
    afterwards. *)
Definition call (f receiver : PageValue) : result (JSValue * PageValue) :=
  match f with
  | PFun outcome writes =>
      r <- outcome ;;
      ok (r, assign receiver writes)
  | _ => throw (Exn.TypeError "not a function")
  end.

(** [getStoryStore] *)
Definition getStoryStore (preview : PageValue) : result PageValue :=
  if negb (ptruthy preview) then throw (Exn.Error "Unable to find Storybook preview")
  else
    hasStore <- has_property "storyStore" preview ;;
    if (hasStore && ptruthy (pget preview "storyStore"))%bool
    then ok (pget preview "storyStore")
    else
      hasValue <- has_property "storyStoreValue" preview ;;
      if (hasValue && ptruthy (pget preview "storyStoreValue"))%bool
      then ok (pget preview "storyStoreValue")
      else throw (Exn.Error "Unable to find Storybook story store").

(** [a || b] on data. *)
Definition or_else (a b : JSValue) : JSValue := if truthy a then a else b.

(** [String(v)] on data. *)
Fixpoint toString (v : JSValue) : string :=
  match v with
  | VUndefined => "undefined"
  | VNull => "null"
  | VBool b => if b then "true" else "false"
  | VNum n => number_to_string n
  | VStr s => s
  | VArr items =>
      join (map (fun x => if nullish x then "" else toString x) items) ","
  | VObj _ => "[object Object]"
  end.

(** Key equality of a [Map] ([SameValueZero]); two objects met at
    different places of the data are different keys. *)
Definition same_key (a b : JSValue) : bool :=
  match a, b with
  | VUndefined, VUndefined | VNull, VNull => true
  | VBool x, VBool y => Bool.eqb x y
  | VNum x, VNum y => Z.eqb x y
  | VStr x, VStr y => String.eqb x y
  | _, _ => false
  end.

(** [story.id?.split('--')[0]] *)
Definition idPrefix (storyId : JSValue) : result JSValue :=
  match storyId with
  | VUndefined | VNull => ok VUndefined
  | VStr s => ok (VStr (hd "" (split s "--")))
  | _ => throw (Exn.TypeError "story.id?.split is not a function")
  end.

(** The wrapper created for the first story seen of a component. *)
Definition newComponentItem (componentId story : JSValue) : JSValue :=
  let parameters := get story "parameters" in
  VObj [ ("meta",
          VObj [ ("id", componentId);
                 ("title", or_else (get story "title")
                                   (or_else (get story "kind") (VStr "Unknown")));
                 ("parameters",
                  VObj [ ("fileName", or_else (get_opt parameters "fileName") (VStr ""));
                         ("docs", or_else (get_opt parameters "docs") (VObj [])) ]) ]);
         ("stories", VObj []) ].

(** [item.stories[story.id] = {id, name, parameters}] *)
Definition addStory (item story : JSValue) : JSValue :=
  let entry :=
    VObj [ ("id", get story "id");
           ("name", or_else (get story "name") (get story "story"));
           ("parameters", or_else (get story "parameters") (VObj [])) ] in
  match item with
  | VObj props =>
      match lookup "stories" props with
      | VObj stories =>
          VObj (set_property "stories"
                  (VObj (set_property (toString (get story "id")) entry stories))
                  props)
      | _ => item
      end
  | _ => item
  end.

Fixpoint map_update (key : JSValue) (f : JSValue -> JSValue)
    (m : list (JSValue * JSValue)) : option (list (JSValue * JSValue)) :=
  match m with
  | [] => None
  | (k, v) :: rest =>
      if same_key key k then Some ((k, f v) :: rest)
      else match map_update key f rest with
           | Some rest' => Some ((k, v) :: rest')
           | None => None
           end
  end.

(** One iteration of the loop over the result of [preview.extract()]. *)
Definition groupStory (groupedByComponent : list (JSValue * JSValue))
    (story : JSValue) : result (list (JSValue * JSValue)) :=
  if nullish story
  then throw (Exn.TypeError "Cannot read properties of null or undefined (reading 'componentId')")
  else
    let componentId := get story "componentId" in
    componentId <-
      (if truthy componentId then ok componentId
       else
         prefix <- idPrefix (get story "id") ;;
         ok (or_else prefix (VStr "unknown"))) ;;
    match map_update componentId (fun item => addStory item story) groupedByComponent with
    | Some updated => ok updated
    | None =>
        ok (groupedByComponent
              ++ [(componentId, addStory (newComponentItem componentId story) story)])%list
    end.

Fixpoint groupStories (groupedByComponent : list (JSValue * JSValue))
    (storyItems : list JSValue) : result (list (JSValue * JSValue)) :=
  match storyItems with
  | [] => ok groupedByComponent
  | story :: rest =>
      grouped <- groupStory groupedByComponent story ;;
      groupStories grouped rest
  end.

Definition shapeError (preview storyStore : PageValue) : Exn.t :=
  Exn.Error
    ("Unable to find cached CSF files in Storybook store. Available preview properties: "
       ++ join (Object_keys preview) ", "
       ++ ". Available storyStore properties: "
       ++ join (Object_keys storyStore) ", ").

(** The function that [extractAllStoriesFromStorybook] evaluates in the
    page, applied to [window.__STORYBOOK_PREVIEW__]; its result is the list
    of item objects before they are marshalled to the host process. *)
Definition evaluate (preview : PageValue) : result (list PageValue) :=
  if negb (ptruthy preview) then throw (Exn.Error "Unable to find Storybook preview")
  else if isFunction (pget preview "extract") then
    r <- call (pget preview "extract") preview ;;
    let extracted := fst r in
    if nullish extracted
    then throw (Exn.TypeError "Cannot convert undefined or null to object")
    else
      grouped <- groupStories [] (data_values extracted) ;;
      ok (map (fun entry => PData (snd entry)) grouped)
  else
    storyStore <- getStoryStore preview ;;
    storyStore <-
      (if isFunction (pget storyStore "cacheAllCSFFiles")
       then r <- call (pget storyStore "cacheAllCSFFiles") storyStore ;; ok (snd r)
       else ok storyStore) ;;
    if ptruthy (pget storyStore "cachedCSFFiles")
    then ok (Object_values (pget storyStore "cachedCSFFiles"))
    else if ptruthy (pget storyStore "cache")
    then ok (Object_values (pget storyStore "cache"))
    else if ptruthy (pget storyStore "stories")
    then ok (Object_values (pget storyStore "stories"))
    else throw (shapeError preview storyStore).

End Registry.

(** ** The extraction run ([extractStorybookData]) and the prose page
       extractor ([extractMDXStoryContentWithBrowser]) *)

Module Extraction.
Import JsString Json Types Registry.

(** What the browser does with the page opened for one URL, step by step:
    each call either resolves or rejects. *)
Record PageSession : Type := mkSession {
  newPage : result unit;
  route : result unit;
  goto : result unit;
  waitForSelector : result unit;
  innerHTML : result string;
  closePage : result unit
}.

(** The entry document [iframe.html] once loaded: the page steps and the
    value of [window.__STORYBOOK_PREVIEW__]. *)
Record EntryPage : Type := mkEntryPage {
  entry_newPage : result unit;
  entry_route : result unit;
  entry_goto : result unit;
  window_preview : PageValue;
  entry_close : result unit
}.

(** Lines written to the console of the host process. *)
Inductive LogEntry : Type :=
| LogSettingUp
| LogRoutingConfigured (distPath : string)
| LogProcessing (count : nat)
| LogSkippingInvalidItem (item : StorybookStoreItem)
| LogExtracting (url : string)
| LogFailedToExtract (url : string) (error : Exn.t)
| LogExtracted (count : nat).

(** A computation of the run: its outcome and the lines it logged. *)
Definition Run (A : Type) : Type := (result A * list LogEntry)%type.

Definition ret {A : Type} (a : A) : Run A := (ok a, []).

Definition log (entry : LogEntry) : Run unit := (ok tt, [entry]).

Definition lift {A : Type} (r : result A) : Run A := (r, []).

Definition andThen {A B : Type} (m : Run A) (k : A -> Run B) : Run B :=
  match fst m with
  | inl e => (inl e, snd m)
  | inr a => (fst (k a), (snd m ++ snd (k a))%list)
  end.

Notation "x <~ m ;; k" := (andThen m (fun x => k))
  (at level 61, m at next level, right associativity).

Fixpoint forEach {A B : Type} (f : A -> Run B) (xs : list A) : Run (list B) :=
  match xs with
  | [] => ret []
  | x :: rest =>
      y <~ f x ;;
      ys <~ forEach f rest ;;
      ret (y :: ys)
  end.

Section WithBrowser.

(** [convertHtmlToMarkdown]: the Turndown service with the rules of the
    content renderer; the promise it returns resolves or rejects. *)
Variable convertHtmlToMarkdown : string -> result string.

(** The pages of the site, as the browser shows them. *)
Variable browser : string -> PageSession.

(** The typed view of an item object once marshalled out of the page. *)
Variable marshal : PageValue -> StorybookStoreItem.

(** The awaited steps inside the [try] block, after the page is routed. *)
Definition readContent (page : PageSession) : result string :=
  goto page ;;;
  waitForSelector page ;;;
  html <- innerHTML page ;;
  closePage page ;;;
  ok html.

(** [extractMDXStoryContentWithBrowser].  The promise of
    [convertHtmlToMarkdown] is returned without being awaited, so it settles
    after the [try] block is left. *)
Definition extractMDXStoryContentWithBrowser (url : string) : Run string :=
  let page := browser url in
  match newPage page ;;; route page with
  | inl error => (ok "", [LogFailedToExtract url error])
  | inr _ =>
      match readContent page with
      | inl error => (ok "", [LogExtracting url; LogFailedToExtract url error])
      | inr html => (convertHtmlToMarkdown html, [LogExtracting url])
      end
  end.

Definition docsUrl (storyId : string) : string :=
  "http://localhost/iframe.html?id=" ++ replace storyId "--page" "--docs".

(** The body of the loop over the stories of one item. *)
Definition enrichStory (entry : string * Story) : Run (string * Story) :=
  let '(key, story) := entry in
  if Generators.isDocsOnly story then
    content <~ extractMDXStoryContentWithBrowser (docsUrl (story_id story)) ;;
    ret (key,
         mkStory (story_id story) (story_name story)
           (mkStoryParameters (fileName (parameters story))
                              (docs (parameters story))
                              (docsOnly (parameters story))
                              (Some content)))
  else ret entry.

(** The body of the loop over the store items. *)
Definition enrichItem (item : StorybookStoreItem) : Run StorybookStoreItem :=
  match stories item with
  | None =>
      _ <~ log (LogSkippingInvalidItem item) ;;
      ret item
  | Some [] =>
      if endsWith (meta_fileName (meta item)) ".mdx" then
        content <~ extractMDXStoryContentWithBrowser (docsUrl (id (meta item))) ;;
        ret (mkItem (meta item)
               (Some [ (id (meta item),
                        mkStory (id (meta item)) (Some (title (meta item)))
                          (mkStoryParameters None (Some noDocs) (Some true)
                                             (Some content))) ]))
      else ret item
  | Some entries =>
      enriched <~ forEach enrichStory entries ;;
      ret (mkItem (meta item) (Some enriched))
  end.

(** [page.waitForFunction(() => window.__STORYBOOK_PREVIEW__)] *)
Definition waitForPreview (entry : EntryPage) : result unit :=
  if ptruthy (window_preview entry) then ok tt
  else throw (Exn.Error "page.waitForFunction: Timeout exceeded").

(** [extractAllStoriesFromStorybook] *)
Definition extractAllStoriesFromStorybook (entry : EntryPage)
  : result (list StorybookStoreItem) :=
  entry_newPage entry ;;;
  entry_route entry ;;;
  entry_goto entry ;;;
  waitForPreview entry ;;;
  stories <- evaluate (window_preview entry) ;;
  entry_close entry ;;;
  ok (map marshal stories).

(** [extractStorybookData], from the launch of the browser to the value it
    returns. *)
Definition extractStorybookData (args : Args) (entry : EntryPage)
  : Run (list StorybookStoreItem) :=
  _ <~ log LogSettingUp ;;
  _ <~ log (LogRoutingConfigured (distPath args)) ;;
  storeItems <~ lift (extractAllStoriesFromStorybook entry) ;;
  _ <~ log (LogProcessing (List.length storeItems)) ;;
  storeItems <~ forEach enrichItem storeItems ;;
  _ <~ log (LogExtracted (List.length storeItems)) ;;
  ret storeItems.

End WithBrowser.

End Extraction.

(** ** The content renderer: the [codeBlock] rule of [convertHtmlToMarkdown] *)

Module Renderer.
Import JsString.

(** The document tree handed to the rules: text and HTML elements. *)
Inductive Node : Type :=
| Text (data : string)
| Element (nodeName : string) (attributes : list (string * string))
          (children : list Node).

Fixpoint getAttribute (name : string) (attributes : list (string * string))
  : option string :=
  match attributes with
  | [] => None
  | (k, v) :: rest => if String.eqb name k then Some v else getAttribute name rest
  end.

(** [el.className] of an HTML element. *)
Definition className (el : Node) : string :=
  match el with
  | Element _ attributes _ => or_empty (getAttribute "class" attributes)
  | Text _ => ""
  end.

(** The selector [[class*="language-"]]. *)
Definition matchesLanguageSelector (n : Node) : bool :=
  match n with
  | Element _ attributes _ =>
      match getAttribute "class" attributes with
      | Some c => includes c "language-"
      | None => false
      end
  | Text _ => false
  end.

(** The first node, in document order, among [n] and its descendants that
    matches the selector. *)
Fixpoint firstMatch (n : Node) : option Node :=
  if matchesLanguageSelector n then Some n
  else
    match n with
    | Text _ => None
    | Element _ _ children =>
        (fix among (l : list Node) : option Node :=
           match l with
           | [] => None
           | c :: rest =>
               match firstMatch c with
               | Some m => Some m
               | None => among rest
               end
           end) children
    end.

Fixpoint firstMatchAmong (l : list Node) : option Node :=
  match l with
  | [] => None
  | c :: rest =>
      match firstMatch c with
      | Some m => Some m
      | None => firstMatchAmong rest
      end
  end.

(** [node.querySelector('[class*="language-"]')]: descendants only. *)
Definition querySelector (node : Node) : option Node :=
  match node with
  | Element _ _ children => firstMatchAmong children
  | Text _ => None
  end.

Definition fence : string := "```".

(** The [filter] of the rule. *)
Definition codeBlock_filter (node : Node) : bool :=
  match node with
  | Element nodeName _ _ => String.eqb nodeName "PRE"
  | Text _ => false
  end.

(** The language that the rule reads off the node. *)
Definition codeBlock_language (node : Node) : string :=
  match querySelector node with
  | Some languageElement =>
      let classNames := split (className languageElement) " " in
      match List.find (fun cls => startsWith cls "language-") classNames with
      | Some languageClass => replace languageClass "language-" ""
      | None => ""
      end
  | None => ""
  end.

(** The [replacement] of the rule; [content] is the rendering of the
    children of [node]. *)
Definition codeBlock_replacement (content : string) (node : Node) : string :=
  let language := codeBlock_language node in
  let normalizedContent := trim content in
  if startsWith normalizedContent fence then normalizedContent
  else fence ++ language ++ nl ++ normalizedContent ++ nl ++ fence.

(** The elements below a node, in document order. *)
Fixpoint descendantsOrSelf (n : Node) : list Node :=
  match n with
  | Text _ => [n]
  | Element _ _ children =>
      n :: (fix all (l : list Node) : list Node :=
              match l with
              | [] => []
              | c :: rest => (descendantsOrSelf c ++ all rest)%list
              end) children
  end.

Definition descendants (node : Node) : list Node :=
  match node with
  | Element _ _ children => flat_map descendantsOrSelf children
  | Text _ => []
  end.

(** The class tokens of an element, as the rule splits them. *)
Definition classTokens (el : Node) : list string := split (className el) " ".

End Renderer.

(** ** Document generators: summary text and sitemap *)

Module Summary.
Import JsString Types.

(** What a generator can reach besides its arguments. *)
Record Ambient : Type := mkAmbient {
  (** [new Date().toISOString().split('T')[0]] *)
  currentDate : string
}.

Definition Generator (A : Type) : Type := Ambient -> A.

Definition note : string :=
  "> **Note:** This is a summary overview using the LLMs.txt format (https://llmstxt.org/). Each section links to its full documentation file in plain text (.txt) format. Click any link below to view the detailed documentation for that section.".

(** The line pushed for one item. *)
Definition itemLine (summaryBaseUrl : string) (item : StorybookStoreItem) : string :=
  let description :=
    match meta_docs (meta item) with
    | Some d => or_empty (description_component d)
    | None => ""
    end in
  let description :=
    if truthy description then ": " ++ hd "" (split description nl)
    else description in
  "- [" ++ title (meta item) ++ "](" ++ summaryBaseUrl ++ "/llms/"
        ++ id (meta item) ++ ".html)" ++ description.

Definition refLine (ref : Ref) : string :=
  "- [" ++ ref_title ref ++ "](" ++ strip_trailing_slash (ref_url ref) ++ "/llms.txt)".

Definition summaryHeader (args : Args) : list string :=
  ["# " ++ summaryTitle args; ""; note; ""; summaryDescription args; ""].

Definition refsSection (refs : list Ref) : list string :=
  match refs with
  | [] => []
  | _ => List.app [""; "## Optional"; ""] (List.app (map refLine refs) [""])
  end.

(** [generateSummaryContent] *)
Definition generateSummaryContent (args : Args) (data : list StorybookStoreItem)
  : Generator (list string) :=
  fun _ =>
    List.app (summaryHeader args)
      (List.app (map (itemLine (summaryBaseUrl args)) data)
                (refsSection (refs args))).

(** The text that [writeSummaryFile] writes to [llms.txt]. *)
Definition summaryFileContent (args : Args) (data : list StorybookStoreItem)
  : Generator string :=
  fun env => join (generateSummaryContent args data env) nl.

(** The lines pushed for one item of the sitemap. *)
Definition sitemapItem (summaryBaseUrl date : string) (item : StorybookStoreItem)
  : list string :=
  [ "  <!-- Component/Page documentation -->";
    "  <url>";
    "    <loc>" ++ summaryBaseUrl ++ "/llms/" ++ id (meta item) ++ ".txt</loc>";
    "    <lastmod>" ++ date ++ "</lastmod>";
    "    <changefreq>weekly</changefreq>";
    "    <priority>0.8</priority>";
    "  </url>";
    "  <url>";
    "    <loc>" ++ summaryBaseUrl ++ "/llms/" ++ id (meta item) ++ ".html</loc>";
    "    <lastmod>" ++ date ++ "</lastmod>";
    "    <changefreq>weekly</changefreq>";
    "    <priority>0.7</priority>";
    "  </url>";
    "" ].

Definition sitemapPrologue : list string :=
  [ "<?xml version=" ++ Json.dquote ++ "1.0" ++ Json.dquote
      ++ " encoding=" ++ Json.dquote ++ "UTF-8" ++ Json.dquote ++ "?>";
    "<urlset xmlns=" ++ Json.dquote
      ++ "http://www.sitemaps.org/schemas/sitemap/0.9" ++ Json.dquote ++ ">" ].

Definition sitemapSummaryEntries (summaryBaseUrl date : string) : list string :=
  [ "";
    "  <!-- Main summary page -->";
    "  <url>";
    "    <loc>" ++ summaryBaseUrl ++ "/llms.txt</loc>";
    "    <lastmod>" ++ date ++ "</lastmod>";
    "    <changefreq>weekly</changefreq>";
    "    <priority>1.0</priority>";
    "  </url>";
    "";
    "  <!-- HTML summary index -->";
    "  <url>";
    "    <loc>" ++ summaryBaseUrl ++ "/llms/index.html</loc>";
    "    <lastmod>" ++ date ++ "</lastmod>";
    "    <changefreq>weekly</changefreq>";
    "    <priority>0.9</priority>";
    "  </url>";
    "" ].

(** [generateSitemapContent] *)
Definition generateSitemapContent (args : Args) (data : list StorybookStoreItem)
  : Generator string :=
  fun env =>
    let date := currentDate env in
    join (List.app sitemapPrologue
            (List.app (sitemapSummaryEntries (summaryBaseUrl args) date)
               (List.app (flat_map (sitemapItem (summaryBaseUrl args) date) data)
                         ["</urlset>"])))
         nl.

End Summary.

(** ** Inputs used by the closed statements below *)

Module Inputs.
Import Json Types Registry Renderer StaticRouting.

(** A site tree whose root [/srv/site] has a sibling directory
    [/srv/site-secret]. *)
Definition siblingTree : FileSystem :=
  fun p =>
    if String.eqb p "/srv/site" then Some Directory
    else if String.eqb p "/srv/site/iframe.html" then Some (File "<html></html>")
    else if String.eqb p "/srv/site-secret" then Some Directory
    else if String.eqb p "/srv/site-secret/key.pem" then Some (File "PRIVATE KEY")
    else None.



(** A component with a description, one story, no props and no
    subcomponents. *)
Definition plainComponent : StorybookStoreItem :=
  mkItem (mkMeta "components-badge" "Components/Badge" "Badge.stories.tsx"
                 (Some (mkDocs (Some "A badge.") None None)) None None)
         (Some [ ("components-badge--default",
                  mkStory "components-badge--default" (Some "Default")
                    (mkStoryParameters None
                       (Some (mkDocs None None (Some "<Badge />")))
                       None None)) ]).

(** The same component when its story file declares [subcomponents: {}],
    a mapping without entries. *)
Definition componentWithEmptySubcomponents : StorybookStoreItem :=
  mkItem (mkMeta "components-badge" "Components/Badge" "Badge.stories.tsx"
                 (Some (mkDocs (Some "A badge.") None None)) None (Some []))
         (stories plainComponent).

(** An item of the raw registry that has no stories collection. *)
Definition itemWithoutStories : StorybookStoreItem :=
  mkItem (mkMeta "components-card" "Components/Card" "Card.stories.tsx"
                 None None None)
         None.

(** An item whose stories collection is empty. *)
Definition itemWithoutVariants : StorybookStoreItem :=
  mkItem (mkMeta "components-empty" "Components/Empty" "Empty.stories.tsx"
                 (Some (mkDocs (Some "Nothing here.") None None)) None None)
         (Some []).

(** A registry object that has neither an [extract] function nor a story
    store. *)
Definition previewWithoutStore : PageValue :=
  PObj [ ("channel", PObj []); ("renderToCanvas", PFun (inr VUndefined) []) ].

(** A registry object whose story store exposes none of the known
    properties. *)
Definition previewWithUnknownStore : PageValue :=
  PObj [ ("channel", PObj []);
         ("storyStoreValue", PObj [ ("storyIndex", PObj []); ("hooks", PObj []) ]) ].

(** The prop of the props table example: an [enum] of [a] and [b]. *)
Definition variantType : JSValue :=
  VObj [ ("name", VStr "enum");
         ("value", VArr [ VObj [("value", VStr "a")]; VObj [("value", VStr "b")] ]) ].

(** [<pre><code class="language-tsx">const x = 1;</code></pre>] *)
Definition tsxBlock : Node :=
  Element "PRE" []
    [ Element "CODE" [("class", "language-tsx")] [Text "const x = 1;"] ].

(** [<pre><span class="nolanguage-x"></span><code class="language-tsx">x</code></pre>] *)
Definition shadowedBlock : Node :=
  Element "PRE" []
    [ Element "SPAN" [("class", "nolanguage-x")] [];
      Element "CODE" [("class", "language-tsx")] [Text "x"] ].

(** The entries of the stories collection of an item. *)
Definition variantsOf (item : StorybookStoreItem) : list (string * Story) :=
  match stories item with
  | Some entries => entries
  | None => []
  end.

(** A page whose content marker never attaches. *)
Definition timedOutPage : Extraction.PageSession :=
  Extraction.mkSession (ok tt) (ok tt) (ok tt)
    (throw (Exn.Error "page.waitForSelector: Timeout 2000ms exceeded"))
    (ok "") (ok tt).

End Inputs.

(** ** The claims in the words of the specification *)

Module Spec.
Import JsString Json Types Renderer.

(** A path stays under a root directory when it is the root itself or
    continues it after a path separator. *)
Definition under (root p : string) : bool :=
  (String.eqb p root
   || startsWith p (if endsWith root "/" then root else root ++ "/"))%bool.



(** Every variant of the item carries [docsOnly = true]. *)
Definition prosePageItem (variants : list Story) : Prop :=
  Forall (fun s => docsOnly (parameters s) = Some true) variants.

(** No array inside the value holds [null] or [undefined]: the entries of
    value lists are objects or primitive values. *)
Fixpoint noNullishItems (v : JSValue) : bool :=
  match v with
  | VArr items => forallb (fun x => negb (nullish x) && noNullishItems x)%bool items
  | VObj props => forallb (fun p => noNullishItems (snd p)) props
  | _ => true
  end.


(** A fenced code block tagged [language]. *)
Definition fenced (language content : string) : string :=
  fence ++ language ++ nl ++ content ++ nl ++ fence.

(** An element carries the class token [language-<name>]. *)
Definition carriesLanguage (el : Node) (name : string) : Prop :=
  In ("language-" ++ name) (classTokens el).

End Spec.

(** ** Notions used to state further properties *)

Module Notions.
Import JsString.

(** The character [c] does not occur in [s]. *)
Definition lacks (c : ascii) (s : string) : Prop :=
  ~ In c (list_ascii_of_string s).

(** The last non-empty segment of a path is [index.html]. *)
Definition indexLast (path : string) : Prop :=
  exists before after,
    split path "/" = (before ++ "index.html" :: after)%list
    /\ Forall (fun seg => seg = "") after.

(** The prop types of a component hold no [null] or [undefined] entry. *)
Definition documentedTypes (component : option Types.StorybookComponent) : Prop :=
  Forall (fun prop => Spec.noNullishItems (Types.prop_type prop) = true)
         (Generators.extractComponentProps component).

(** [item.meta.id] of an item object of the page. *)
Definition metaId (item : Registry.PageValue) : Json.JSValue :=
  match item with
  | Registry.PData v => Json.get (Json.get v "meta") "id"
  | _ => Json.VUndefined
  end.

(** Pairwise different as keys of a [Map]. *)
Definition distinctKeys (keys : list Json.JSValue) : Prop :=
  ForallOrdPairs (fun a b => Registry.same_key a b = false) keys.

(** The invariant of the grouping loop: the keys of the map are pairwise
    different, and every item is filed under its own [meta.id]. *)
Definition grouped (m : list (Json.JSValue * Json.JSValue)) : Prop :=
  distinctKeys (map fst m)
  /\ Forall (fun e => Json.get (Json.get (snd e) "meta") "id" = fst e) m.

(** The call returns a value (it does not throw). *)
Definition returns {A : Type} (r : result A) : Prop := exists a, r = ok a.

(** A subcomponent entry without doc metadata. *)
Definition undocumented (entry : string * option Types.StorybookComponent) : Prop :=
  match snd entry with
  | Some sub => Types.__docgenInfo sub = None
  | None => True
  end.

End Notions.

(** ** Inputs used by the closed statements of the further properties *)

Module MoreInputs.
Import Json Types Registry Renderer.

(** A page that loads and whose content container holds [html]. *)
Definition loadedPage (html : string) : Extraction.PageSession :=
  Extraction.mkSession (ok tt) (ok tt) (ok tt) (ok tt) (ok html) (ok tt).

(** A renderer that returns its input. *)
Definition plainRenderer (html : string) : result string := ok html.

(** A prose page file without stories. *)
Definition mdxItem : StorybookStoreItem :=
  mkItem (mkMeta "concepts-setup" "Concepts/Setup" "Setup.mdx" None None None)
         (Some []).

(** A component with one prose variant and one example. *)
Definition mixedItem : StorybookStoreItem :=
  mkItem (mkMeta "components-tag" "Components/Tag" "Tag.stories.tsx" None None None)
         (Some [ ("components-tag--page",
                  mkStory "components-tag--page" (Some "Docs")
                    (mkStoryParameters None None (Some true) None));
                 ("components-tag--default",
                  mkStory "components-tag--default" (Some "Default")
                    (mkStoryParameters None None None None)) ]).

(** A registry object with an [extract] function that yields three
    stories of two components. *)
Definition previewWithExtract : PageValue :=
  PObj [ ("extract",
          PFun (inr (VObj
                  [ ("button--primary",
                     VObj [ ("id", VStr "button--primary");
                            ("componentId", VStr "button");
                            ("title", VStr "Button"); ("name", VStr "Primary") ]);
                    ("card--default",
                     VObj [ ("id", VStr "card--default");
                            ("title", VStr "Card"); ("name", VStr "Default") ]);
                    ("button--ghost",
                     VObj [ ("id", VStr "button--ghost");
                            ("componentId", VStr "button");
                            ("title", VStr "Button"); ("name", VStr "Ghost") ]) ]))
               []) ].

(** A component whose subcomponents mapping names one subcomponent that
    has no doc metadata. *)
Definition itemWithBareSubcomponent : StorybookStoreItem :=
  mkItem (mkMeta "components-menu" "Components/Menu" "Menu.stories.tsx" None None
                 (Some [("MenuItem", Some (mkComponent None))]))
         (Some [ ("components-menu--default",
                  mkStory "components-menu--default" (Some "Default")
                    (mkStoryParameters None None None None)) ]).

End MoreInputs.

(** ** The content renderer: the rules that drop elements *)

Module RendererRules.
Import JsString Renderer.

(** [c.toLowerCase()] on an ASCII character. *)
Definition lowerChar (c : ascii) : ascii :=
  let n := nat_of_ascii c in
  if (Nat.leb 65 n && Nat.leb n 90)%bool then ascii_of_nat (n + 32) else c.

(** [s.toLowerCase()], on ASCII letters. *)
Fixpoint toLowerCase (s : string) : string :=
  match s with
  | EmptyString => EmptyString
  | String c s' => String (lowerChar c) (toLowerCase s')
  end.

Definition attributesOf (node : Node) : list (string * string) :=
  match node with
  | Element _ attributes _ => attributes
  | Text _ => []
  end.

Definition hasAttributeValue (node : Node) (name value : string) : bool :=
  match getAttribute name (attributesOf node) with
  | Some v => String.eqb v value
  | None => false
  end.

(** The [filter] of the rule [removeAnchorLinks]. *)
Definition removeAnchorLinks_filter (node : Node) : bool :=
  match node with
  | Element tagName attributes _ =>
      (String.eqb tagName "A"
       && (match getAttribute "href" attributes with
           | None => true
           | Some href => startsWith href "#"
           end
           || hasAttributeValue node "aria-hidden" "true"
           || hasAttributeValue node "tabindex" "-1"))%bool
  | Text _ => false
  end.

(** The [filter] of the rule [removeElements]: a list of tag names, which
    Turndown compares with the lower-cased node name. *)
Definition removeElements_filter (node : Node) : bool :=
  match node with
  | Element nodeName _ _ =>
      existsb (String.eqb (toLowerCase nodeName)) ["button"; "style"; "script"; "img"]
  | Text _ => false
  end.

(** The [replacement] of both rules. *)
Definition dropped : string := "".

End RendererRules.

(** ** Document generators: per-item HTML *)

Module Html.
Import JsString Json Types Generators.

(** The lines that open every per-item page, up to its [<h1>]. *)
Definition pageHead (title : string) : list string :=
  [ "<!DOCTYPE html>";
    "<html lang=" ++ Json.dquote ++ "zh-CN" ++ Json.dquote ++ ">";
    "<head>";
    "  <meta charset=" ++ Json.dquote ++ "UTF-8" ++ Json.dquote ++ ">";
    "  <meta name=" ++ Json.dquote ++ "viewport" ++ Json.dquote ++ " content=" ++ Json.dquote ++ "width=device-width, initial-scale=1.0" ++ Json.dquote ++ ">";
    "  <title>" ++ title ++ "</title>";
    "  <style>";
    "    body { font-family: -apple-system, BlinkMacSystemFont, " ++ Json.dquote ++ "Segoe UI" ++ Json.dquote ++ ", Roboto, sans-serif; line-height: 1.6; max-width: 1200px; margin: 0 auto; padding: 20px; color: #333; }";
    "    h1 { color: #2c3e50; border-bottom: 2px solid #3498db; padding-bottom: 10px; }";
    "    h2 { color: #34495e; margin-top: 30px; border-bottom: 1px solid #eee; padding-bottom: 5px; }";
    "    h3 { color: #2c3e50; margin-top: 25px; }";
    "    h4 { color: #34495e; margin-top: 20px; }";
    "    table { border-collapse: collapse; width: 100%; margin: 20px 0; }";
    "    th, td { border: 1px solid #ddd; padding: 12px; text-align: left; }";
    "    th { background-color: #f8f9fa; font-weight: 600; }";
    "    code { background: #f1f3f4; padding: 2px 6px; border-radius: 3px; font-family: " ++ Json.dquote ++ "SF Mono" ++ Json.dquote ++ ", Monaco, " ++ Json.dquote ++ "Cascadia Code" ++ Json.dquote ++ ", " ++ Json.dquote ++ "Roboto Mono" ++ Json.dquote ++ ", Consolas, " ++ Json.dquote ++ "Courier New" ++ Json.dquote ++ ", monospace; }";
    "    pre { background: #f8f9fa; border: 1px solid #e1e4e8; border-radius: 6px; padding: 16px; overflow-x: auto; }";
    "    pre code { background: none; padding: 0; }";
    "    .example-section { background: #f8f9fa; border-left: 4px solid #3498db; padding: 15px; margin: 20px 0; border-radius: 0 6px 6px 0; }";
    "    .props-table th { background-color: #e8f4fd; }";
    "    .back-link { display: inline-block; margin-bottom: 20px; color: #3498db; text-decoration: none; }";
    "    .back-link:hover { text-decoration: underline; }";
    "  </style>";
    "</head>";
    "<body>";
    "  <a href=" ++ Json.dquote ++ "./index.html" ++ Json.dquote ++ " class=" ++ Json.dquote ++ "back-link" ++ Json.dquote ++ ">← 返回总览</a>";
    "  <h1>" ++ title ++ "</h1>" ].

(** The opening of a props table, up to [<tbody>]. *)
Definition tableOpening : list string :=
  [ "  <table class=" ++ Json.dquote ++ "props-table" ++ Json.dquote ++ ">";
    "    <thead>";
    "      <tr>";
    "        <th>Name</th>";
    "        <th>Type</th>";
    "        <th>Required</th>";
    "        <th>Default</th>";
    "        <th>Description</th>";
    "      </tr>";
    "    </thead>";
    "    <tbody>" ].

Definition tableClosing : list string :=
  [ "    </tbody>";
    "  </table>" ].

(** The lines pushed for one prop. *)
Definition htmlRow (prop : StorybookComponentProp) : result (list string) :=
  type <- stringifyPropType (prop_type prop) ;;
  ok [ "      <tr>";
       "        <td><code>" ++ prop_name prop ++ "</code></td>";
       "        <td><code>" ++ type ++ "</code></td>";
       "        <td>" ++ (if prop_required prop then "Yes" else "No") ++ "</td>";
       "        <td>" ++ (if JsString.truthy (prop_defaultValue prop)
                          then "<code>" ++ prop_defaultValue prop ++ "</code>"
                          else "") ++ "</td>";
       "        <td>" ++ replace_all_char (prop_description prop) nl_char " " ++ "</td>";
       "      </tr>" ].

(** A props table under the given heading line; nothing for no props. *)
Definition htmlPropsTable (heading : string) (props : list StorybookComponentProp)
  : result (list string) :=
  match props with
  | [] => ok []
  | _ =>
      rows <- mapM htmlRow props ;;
      ok (List.app (heading :: tableOpening)
                   (List.app (List.concat rows) tableClosing))
  end.

(** The lines pushed for one entry of [meta.subcomponents]. *)
Definition htmlSubcomponent (entry : string * option StorybookComponent)
  : result (list string) :=
  match snd entry with
  | Some sub =>
      match __docgenInfo sub with
      | Some docgen =>
          table <- htmlPropsTable "  <h4>Props</h4>" (extractComponentProps (snd entry)) ;;
          ok (List.app
                (("  <h3>" ++ fst entry ++ "</h3>")
                   :: (if truthy_opt (docgen_description docgen)
                       then ["  <p>" ++ or_empty (docgen_description docgen) ++ "</p>"]
                       else []))
                table)
      | None => ok []
      end
  | None => ok []
  end.

(** [ex.source.trim().replace(/</g, '&lt;').replace(/>/g, '&gt;')] *)
Definition escapeSource (source : string) : string :=
  replace_all_char (replace_all_char (trim source) "<" "&lt;") ">" "&gt;".

(** The lines around the source of an example. *)
Definition codeOpening : string :=
  "    <pre><code class=" ++ Json.dquote ++ "language-tsx" ++ Json.dquote ++ ">".

Definition codeClosing : string := "    </code></pre>".

Definition exampleOpening : list string :=
  [ "  <div class=" ++ Json.dquote ++ "example-section" ++ Json.dquote ++ ">" ].

(** The lines pushed for one example. *)
Definition htmlExample (s : Story) : list string :=
  List.app
    (List.app exampleOpening
              [ "    <h3>" ++ interpolate (story_name s) ++ "</h3>" ])
    (List.app
       (if truthy_opt (exampleDescription s)
        then ["    <p>" ++ or_empty (exampleDescription s) ++ "</p>"] else [])
       (List.app
          (if truthy_opt (exampleSource s)
           then [ codeOpening; escapeSource (or_empty (exampleSource s)); codeClosing ]
           else [])
          [ "  </div>" ])).

Definition htmlExamples (stories : list Story) : list string :=
  match stories with
  | [] => []
  | _ => "  <h2>Examples</h2>" :: flat_map htmlExample stories
  end.

Section WithMarkdownConverter.

(** [convertMarkdownToHtml], the chain of regular expression replacements
    applied to the content of a prose page; the generator is embedded for
    an arbitrary such function. *)
Variable convertMarkdownToHtml : string -> string.

(** The lines between the page head and the closing tags. *)
Definition htmlBody (item : StorybookStoreItem) (stories : list Story)
  : result (list string) :=
  if forallb isDocsOnly stories then
    let content :=
      join (filter JsString.truthy
                   (map (fun s => or_empty (fullSource (parameters s))) stories))
           (nl ++ nl) in
    if JsString.truthy content
    then ok [ "  <div class=" ++ Json.dquote ++ "mdx-content" ++ Json.dquote ++ ">"
                ++ convertMarkdownToHtml content ++ "</div>" ]
    else ok []
  else
    let description :=
      match extractStoryDescription item with
      | Some text => ["  <p>" ++ text ++ "</p>"]
      | None => []
      end in
    propsTable <- htmlPropsTable "  <h2>Props</h2>"
                    (extractComponentProps (component (meta item))) ;;
    subcomponentsSection <-
      match subcomponents (meta item) with
      | Some entries =>
          sections <- mapM htmlSubcomponent entries ;;
          ok ("  <h2>Subcomponents</h2>" :: List.concat sections)
      | None => ok []
      end ;;
    ok (List.app description
          (List.app propsTable
             (List.app subcomponentsSection (htmlExamples stories)))).

(** [generateFullFileHtmlContentFromStory] *)
Definition generateFullFileHtmlContentFromStory (item : StorybookStoreItem)
  : result string :=
  stories <- Object_values (Types.stories item) ;;
  body <- htmlBody item stories ;;
  ok (join (List.app (pageHead (title (meta item)))
                     (List.app body ["</body>"; "</html>"]))
           nl).

End WithMarkdownConverter.

End Html.

(** * Properties *)

(** ** Strings *)

Section StringFacts.
Import JsString.

Lemma append_assoc (a b c : string) : (a ++ b) ++ c = a ++ (b ++ c).
Proof. induction a as [|x a IH]; simpl; [reflexivity | now rewrite IH]. Qed.

Lemma append_nil_r (a : string) : a ++ "" = a.
Proof. induction a as [|x a IH]; simpl; [reflexivity | now rewrite IH]. Qed.

Lemma drop_prefix_app (p r : string) : drop_prefix p (p ++ r) = Some r.
Proof.
  induction p as [|x p IH]; simpl.
  - reflexivity.
  - now rewrite Ascii.eqb_refl.
Qed.

Lemma drop_prefix_inv (p s r : string) :
  drop_prefix p s = Some r -> s = p ++ r.
Proof.
  revert s; induction p as [|x p IH]; intros s H; simpl in *.
  - now inversion H.
  - destruct s as [|y s]; [discriminate|].
    destruct (Ascii.eqb_spec x y) as [->|]; [|discriminate].
    simpl. f_equal. now apply IH.
Qed.

Lemma startsWith_app (p r : string) : startsWith (p ++ r) p = true.
Proof. unfold startsWith. now rewrite drop_prefix_app. Qed.

Lemma startsWith_inv (s p : string) :
  startsWith s p = true -> exists r, s = p ++ r.
Proof.
  unfold startsWith. destruct (drop_prefix p s) as [r|] eqn:E; [|discriminate].
  intros _. exists r. now apply drop_prefix_inv.
Qed.

Lemma includes_unfold (s sub : string) :
  includes s sub =
  if startsWith s sub then true
  else match s with
       | EmptyString => false
       | String _ s' => includes s' sub
       end.
Proof. destruct s; reflexivity. Qed.

Lemma includes_middle (a sub b : string) : includes (a ++ sub ++ b) sub = true.
Proof.
  induction a as [|x a IH].
  - rewrite includes_unfold. simpl. now rewrite startsWith_app.
  - rewrite includes_unfold. simpl.
    destruct (startsWith (String x (a ++ sub ++ b)) sub); [reflexivity | exact IH].
Qed.

(** Every element of a list occurs in the joined text. *)
Lemma join_occurs (sep k : string) (ks : list string) :
  In k ks -> exists a b, join ks sep = a ++ k ++ b.
Proof.
  unfold join. induction ks as [|x ks IH]; intros Hin; [contradiction|].
  destruct Hin as [->|Hin].
  - destruct ks as [|y ks]; simpl.
    + exists "", "". now rewrite append_nil_r.
    + exists "", (sep ++ String.concat sep (y :: ks)). reflexivity.
  - destruct (IH Hin) as (a & b & E).
    destruct ks as [|y ks]; [contradiction|].
    exists (x ++ sep ++ a), b.
    change (String.concat sep (x :: y :: ks))
      with (x ++ sep ++ String.concat sep (y :: ks)).
    rewrite E. now rewrite !append_assoc.
Qed.

Lemma includes_join (pre post sep k : string) (ks : list string) :
  In k ks -> includes (pre ++ join ks sep ++ post) k = true.
Proof.
  intros Hin. destruct (join_occurs sep k ks Hin) as (a & b & ->).
  replace (pre ++ (a ++ k ++ b) ++ post) with ((pre ++ a) ++ k ++ (b ++ post))
    by now rewrite !append_assoc.
  apply includes_middle.
Qed.

(** Removing a prefix with [replace]. *)
Lemma replace_prefix (p r : string) : replace (p ++ r) p "" = r.
Proof.
  destruct (p ++ r) eqn:E; simpl; rewrite <- E, drop_prefix_app; reflexivity.
Qed.

End StringFacts.

(** ** Paths *)

Example split_double_dash :
  JsString.split "components-button--primary" "--" = ["components-button"; "primary"].
Proof. reflexivity. Qed.

Example split_trailing_separator : JsString.split "a--" "--" = ["a"; ""].
Proof. reflexivity. Qed.

Example resolve_dotdot :
  Path.resolve "/home/u" ["/srv/site"; "../../etc/passwd/index.html"]
  = "/etc/passwd/index.html".
Proof. reflexivity. Qed.

Example resolve_relative_root :
  Path.resolve "/home/u" ["storybook-static"; "iframe.html"]
  = "/home/u/storybook-static/iframe.html".
Proof. reflexivity. Qed.

Example join_index : Path.join_path [""; "index.html"] = "index.html".
Proof. reflexivity. Qed.

Example join_dir : Path.join_path ["docs/"; "index.html"] = "docs/index.html".
Proof. reflexivity. Qed.

Example extname_cases :
  map Path.extname ["a/b.c/d"; "x.tar.gz"; ".bashrc"; ".."; "a."; "dir.d/"; "..a"; ""]
  = [""; ".gz"; ""; ""; "."; ".d"; ".a"; ""].
Proof. reflexivity. Qed.

(** ** Static asset resolver *)

Section StaticRoutingFacts.
Import JsString StaticRouting Inputs.

(** A 200 response is sent only for a path that exists and has the resolved
    root as a prefix of its characters; the body is the content of that
    path and nothing else is read. *)
Lemma setupStaticRouting_200 (cwd : string) (fs : FileSystem)
    (distPath pathname : string) :
  status (fst (setupStaticRouting cwd fs distPath pathname)) = 200%Z ->
  let fullPath := requestedPath cwd distPath pathname in
  startsWith fullPath (Path.resolve cwd [distPath]) = true
  /\ fs fullPath = Some (File (body (fst (setupStaticRouting cwd fs distPath pathname))))
  /\ snd (setupStaticRouting cwd fs distPath pathname) = [Stat fullPath; Read fullPath].
Proof.
  unfold setupStaticRouting, existsSync, readFile. cbv zeta.
  destruct (fs (requestedPath cwd distPath pathname)) as [[content|]|] eqn:Efs;
    destruct (startsWith (requestedPath cwd distPath pathname)
                (Path.resolve cwd [distPath])) eqn:Epre;
    simpl; intros H; try discriminate.
  repeat split; reflexivity.
Qed.

(** A path that does not begin with the characters of the resolved root is
    answered with 404 and is not read. *)
Lemma setupStaticRouting_404 (cwd : string) (fs : FileSystem)
    (distPath pathname : string) :
  startsWith (requestedPath cwd distPath pathname) (Path.resolve cwd [distPath])
  = false ->
  setupStaticRouting cwd fs distPath pathname
  = (notFound, [Stat (requestedPath cwd distPath pathname)]).
Proof.
  intros H. unfold setupStaticRouting. rewrite H.
  now destruct (existsSync fs _).
Qed.

(** The request [../../etc/passwd] of the specification is rejected. *)
Example setupStaticRouting_etc_passwd (fs : FileSystem) :
  setupStaticRouting "/" fs "/srv/site" "../../etc/passwd"
  = (notFound, [Stat "/etc/passwd/index.html"]).
Proof. now apply setupStaticRouting_404. Qed.

(** C1 (violated by the code).  The asset resolver must answer 404 for
    every request that resolves outside the site root and never read
    there.  With the root [/srv/site], the request whose URL path is
    [//srv/site-secret/key.pem] resolves to a file of the sibling directory
    [/srv/site-secret], which is not under the root; the handler reads it
    and answers 200 with its bytes, because the check compares characters
    and not path components. *)
Theorem setupStaticRouting_serves_sibling_directory :
  requestedPath "/" "/srv/site" "//srv/site-secret/key.pem"
  = "/srv/site-secret/key.pem"
  /\ Spec.under "/srv/site" "/srv/site-secret/key.pem" = false
  /\ setupStaticRouting "/" siblingTree "/srv/site" "//srv/site-secret/key.pem"
     = (mkResponse 200 (Some "application/octet-stream") "PRIVATE KEY" corsHeaders,
        [Stat "/srv/site-secret/key.pem"; Read "/srv/site-secret/key.pem"]).
Proof. repeat split; reflexivity. Qed.

End StaticRoutingFacts.

(** ** Per-item plain text *)

Section GeneratorFacts.
Import JsString Json Types Generators Inputs.


Lemma isDocsOnly_true (s : Story) :
  isDocsOnly s = true <-> docsOnly (parameters s) = Some true.
Proof.
  unfold isDocsOnly. destruct (docsOnly (parameters s)) as [[|]|]; split;
    intros H; try reflexivity; try discriminate.
Qed.

Lemma prosePageItem_forallb (variants : list Story) :
  Spec.prosePageItem variants <-> forallb isDocsOnly variants = true.
Proof.
  unfold Spec.prosePageItem. rewrite forallb_forall, Forall_forall.
  split; intros H s Hs; apply isDocsOnly_true; now apply H.
Qed.

Lemma not_prosePageItem_forallb (variants : list Story) :
  ~ Spec.prosePageItem variants -> forallb isDocsOnly variants = false.
Proof.
  intros H. destruct (forallb isDocsOnly variants) eqn:E; [|reflexivity].
  exfalso. apply H. now apply prosePageItem_forallb.
Qed.





(** Items that are not prose pages have at least one variant. *)
Lemma not_prosePageItem_nonempty (variants : list Story) :
  ~ Spec.prosePageItem variants -> variants <> [].
Proof. intros H ->. apply H. constructor. Qed.

(** Without a subcomponents mapping and with an empty props list, the
    generated lines are the title heading, the component description when
    there is one, and the Examples section with one entry per variant:
    neither a Props nor a Subcomponents heading is generated. *)
Lemma component_text_without_props (item : StorybookStoreItem)
    (entries : list (string * Story)) :
  stories item = Some entries ->
  ~ Spec.prosePageItem (map snd entries) ->
  subcomponents (meta item) = None ->
  extractComponentProps (component (meta item)) = [] ->
  generateFullFileContentFromStory item
  = ok (("# " ++ title (meta item)) :: ""
          :: (match extractStoryDescription item with
              | Some text => [text; ""]
              | None => []
              end
              ++ "## Examples" :: "" :: flat_map exampleLines (map snd entries))%list).
Proof.
  intros Hs Hp Hsub Hprops. unfold generateFullFileContentFromStory.
  rewrite Hs. simpl.
  rewrite (not_prosePageItem_forallb _ Hp), Hprops, Hsub. simpl.
  unfold examplesSection.
  destruct (map snd entries) as [|s rest] eqn:E.
  - exfalso. now apply (not_prosePageItem_nonempty _ Hp).
  - reflexivity.
Qed.

Lemma component_text_without_props_witness :
  generateFullFileContentFromStory plainComponent
  = ok [ "# Components/Badge"; ""; "A badge."; "";
         "## Examples"; ""; ""; "### Default"; ""; "```tsx"; "<Badge />"; "```" ].
Proof.
  apply (component_text_without_props plainComponent _ eq_refl).
  - intros H. inversion H as [|s l Hd Hl]. discriminate Hd.
  - reflexivity.
  - reflexivity.
Defined.

(** C3 (violated by the code).  An item with no subcomponents and no
    props must get no empty Props and no empty Subcomponents section.
    [componentWithEmptySubcomponents] is not a prose page, its
    subcomponents mapping has no entry and its props list is empty.  The
    generator tests the props list by its length and generates no Props
    heading, but it tests the subcomponents mapping by truthiness only, and
    an empty object is truthy: the Subcomponents heading is generated with
    nothing under it, directly followed by the Examples section. *)
Theorem generateFullFileContentFromStory_empty_subcomponents_section :
  ~ Spec.prosePageItem (map snd (variantsOf componentWithEmptySubcomponents))
  /\ subcomponents (meta componentWithEmptySubcomponents) = Some []
  /\ extractComponentProps (component (meta componentWithEmptySubcomponents)) = []
  /\ generateFullFileContentFromStory componentWithEmptySubcomponents
     = ok [ "# Components/Badge"; ""; "A badge."; "";
            "## Subcomponents"; "";
            "## Examples"; ""; ""; "### Default"; ""; "```tsx"; "<Badge />"; "```" ].
Proof.
  split; [|repeat split].
  intros H. inversion H as [|s l Hd Hl]. discriminate Hd.
Qed.

(** C10.  For every item whose stories collection is empty the generator
    takes the prose page branch and returns no line at all: the text
    written for the item is empty. *)
Theorem empty_stories_empty_text (item : StorybookStoreItem) :
  stories item = Some [] ->
  generateFullFileContentFromStory item = ok []
  /\ txtFileContent item = ok "".
Proof.
  intros Hs. unfold txtFileContent, generateFullFileContentFromStory.
  rewrite Hs. split; reflexivity.
Qed.

Lemma empty_stories_empty_text_witness :
  generateFullFileContentFromStory itemWithoutVariants = ok []
  /\ txtFileContent itemWithoutVariants = ok "".
Proof. apply (empty_stories_empty_text itemWithoutVariants eq_refl). Defined.

End GeneratorFacts.

(** ** The extraction run *)

Section ExtractionFacts.
Import JsString Json Types Registry Extraction Generators Inputs.

Variable convertHtmlToMarkdown : string -> result string.
Variable browser : string -> PageSession.

(** An item without a stories collection is logged and left as it is. *)
Lemma enrichItem_without_stories (item : StorybookStoreItem) :
  stories item = None ->
  enrichItem convertHtmlToMarkdown browser item
  = (ok item, [LogSkippingInvalidItem item]).
Proof. intros H. unfold enrichItem. now rewrite H. Qed.

(** The loop returns as many items as it was given: none is dropped. *)
Lemma forEach_enrichItem_length (items result : list StorybookStoreItem) :
  fst (forEach (enrichItem convertHtmlToMarkdown browser) items) = ok result ->
  List.length result = List.length items.
Proof.
  revert result. induction items as [|item rest IH]; intros result H.
  - simpl in H. now inversion H.
  - simpl in H. unfold andThen in H at 1.
    destruct (fst (enrichItem convertHtmlToMarkdown browser item)) as [e|item'];
      [discriminate|].
    simpl in H. unfold andThen in H at 1.
    destruct (fst (forEach (enrichItem convertHtmlToMarkdown browser) rest))
      as [e|rest'] eqn:E; [discriminate|].
    simpl in H. inversion H; subst. simpl. f_equal. now apply IH.
Qed.

(** An item without a stories collection that enters the loop is among the
    items that leave it. *)
Lemma forEach_enrichItem_keeps_item_without_stories
    (items result : list StorybookStoreItem) (item : StorybookStoreItem) :
  fst (forEach (enrichItem convertHtmlToMarkdown browser) items) = ok result ->
  In item items -> stories item = None -> In item result.
Proof.
  revert result. induction items as [|x rest IH]; intros result H Hin Hs.
  - contradiction.
  - simpl in H. unfold andThen in H at 1.
    destruct (fst (enrichItem convertHtmlToMarkdown browser x)) as [e|x'] eqn:Ex;
      [discriminate|].
    simpl in H. unfold andThen in H at 1.
    destruct (fst (forEach (enrichItem convertHtmlToMarkdown browser) rest))
      as [e|rest'] eqn:E; [discriminate|].
    simpl in H. inversion H; subst.
    destruct Hin as [->|Hin].
    + rewrite (enrichItem_without_stories item Hs) in Ex.
      inversion Ex; subst. now left.
    + right. now apply IH.
Qed.

(** C6.  Whenever one of the awaited browser steps of a prose page
    extraction fails (opening or routing the page, the navigation, the wait
    for the content marker, the query of its inner markup, closing the
    page), the extractor resolves with the empty string and logs the
    failure: nothing is thrown to the caller. *)
Theorem extractMDXStoryContentWithBrowser_recovers (url : string) (error : Exn.t) :
  newPage (browser url) = inl error
  \/ route (browser url) = inl error
  \/ goto (browser url) = inl error
  \/ waitForSelector (browser url) = inl error
  \/ innerHTML (browser url) = inl error
  \/ closePage (browser url) = inl error ->
  fst (extractMDXStoryContentWithBrowser convertHtmlToMarkdown browser url) = ok ""
  /\ exists e, In (LogFailedToExtract url e)
                  (snd (extractMDXStoryContentWithBrowser convertHtmlToMarkdown
                          browser url)).
Proof.
  intros H. unfold extractMDXStoryContentWithBrowser, readContent.
  destruct (browser url) as [np rt gt ws ih cl]. simpl in *.
  destruct np as [e1|[]]; simpl; [split; [reflexivity | eexists; now left]|].
  destruct rt as [e2|[]]; simpl; [split; [reflexivity | eexists; now left]|].
  destruct gt as [e3|[]]; simpl; [split; [reflexivity | eexists; right; now left]|].
  destruct ws as [e4|[]]; simpl; [split; [reflexivity | eexists; right; now left]|].
  destruct ih as [e5|html]; simpl; [split; [reflexivity | eexists; right; now left]|].
  destruct cl as [e6|[]]; simpl; [split; [reflexivity | eexists; right; now left]|].
  exfalso. decompose [or] H; discriminate.
Qed.

End ExtractionFacts.

Lemma extractMDXStoryContentWithBrowser_recovers_witness :
  fst (Extraction.extractMDXStoryContentWithBrowser
         (fun html => ok html) (fun _ => Inputs.timedOutPage)
         "http://localhost/iframe.html?id=concepts-intro--docs")
  = ok ""
  /\ exists e,
       In (Extraction.LogFailedToExtract
             "http://localhost/iframe.html?id=concepts-intro--docs" e)
          (snd (Extraction.extractMDXStoryContentWithBrowser
                  (fun html => ok html) (fun _ => Inputs.timedOutPage)
                  "http://localhost/iframe.html?id=concepts-intro--docs")).
Proof.
  apply (extractMDXStoryContentWithBrowser_recovers
           (fun html => ok html) (fun _ => Inputs.timedOutPage)
           "http://localhost/iframe.html?id=concepts-intro--docs"
           (Exn.Error "page.waitForSelector: Timeout 2000ms exceeded")).
  right; right; right; left. reflexivity.
Defined.

(** A rejection of the renderer is not recovered: the promise is returned
    from inside the [try] block without being awaited. *)
Example extractMDXStoryContentWithBrowser_renderer_rejection :
  fst (Extraction.extractMDXStoryContentWithBrowser
         (fun _ => throw (Exn.TypeError "turndown"))
         (fun _ => Extraction.mkSession (ok tt) (ok tt) (ok tt) (ok tt)
                     (ok "<p>x</p>") (ok tt))
         "http://localhost/iframe.html?id=a--docs")
  = throw (Exn.TypeError "turndown").
Proof. reflexivity. Qed.

(** C4 (violated by the code).  An item of the raw registry without a
    stories collection must be logged and excluded from what the document
    generators consume.  The run over a registry that holds
    [itemWithoutStories] logs the item but returns it with the others, and
    the per-item text generator then throws on it. *)
Theorem extractStorybookData_returns_item_without_stories
    (convertHtmlToMarkdown : string -> result string)
    (browser : string -> Extraction.PageSession) (args : Types.Args) :
  let entry :=
    Extraction.mkEntryPage (ok tt) (ok tt) (ok tt)
      (Registry.PObj
         [ ("storyStoreValue",
            Registry.PObj
              [ ("cachedCSFFiles",
                 Registry.PObj
                   [ ("./Card.stories.tsx",
                      Registry.PObj
                        [ ("meta",
                           Registry.PData
                             (Json.VObj
                                [ ("id", Json.VStr "components-card");
                                  ("title", Json.VStr "Components/Card") ])) ]) ]) ]) ])
      (ok tt) in
  Extraction.extractStorybookData convertHtmlToMarkdown browser
    (fun _ => Inputs.itemWithoutStories) args entry
  = (ok [Inputs.itemWithoutStories],
     [ Extraction.LogSettingUp;
       Extraction.LogRoutingConfigured (Types.distPath args);
       Extraction.LogProcessing 1;
       Extraction.LogSkippingInvalidItem Inputs.itemWithoutStories;
       Extraction.LogExtracted 1 ])
  /\ Generators.generateFullFileContentFromStory Inputs.itemWithoutStories
     = throw (Exn.TypeError "Cannot convert undefined or null to object").
Proof. split; reflexivity. Qed.

(** ** The registry lookup *)

Section RegistryFacts.
Import JsString Json Registry Inputs.

Lemma getStoryStore_truthy (preview store : PageValue) :
  getStoryStore preview = ok store -> ptruthy preview = true.
Proof.
  unfold getStoryStore. destruct (ptruthy preview); [reflexivity|].
  simpl. discriminate.
Qed.

(** The message of the shape error names every property of the registry
    object and of the story store. *)
Lemma shapeError_names_properties (preview storyStore : PageValue) (k : string) :
  In k (Object_keys preview) \/ In k (Object_keys storyStore) ->
  includes (Exn.message (shapeError preview storyStore)) k = true.
Proof.
  unfold shapeError. cbn [Exn.message]. intros [H|H].
  - now apply includes_join.
  - rewrite <- (append_nil_r (join (Object_keys storyStore) ", ")).
    rewrite <- !append_assoc. rewrite append_assoc.
    now apply includes_join.
Qed.

(** C5 (as amended).  When the registry object has no [extract] function
    and has a story store that exposes no [cacheAllCSFFiles] function and no
    [cachedCSFFiles], [cache] or [stories] map, the lookup fails with an
    error whose message includes every property name observed on the
    registry object and on the story store.  When the registry object has
    no story store either, the lookup fails with the fixed message
    [Unable to find Storybook story store]. *)
Theorem evaluate_unsupported_shape (props : list (string * PageValue)) :
  isFunction (plookup "extract" props) = false ->
  (forall store,
      getStoryStore (PObj props) = ok store ->
      isFunction (pget store "cacheAllCSFFiles") = false ->
      ptruthy (pget store "cachedCSFFiles") = false ->
      ptruthy (pget store "cache") = false ->
      ptruthy (pget store "stories") = false ->
      exists msg,
        evaluate (PObj props) = throw (Exn.Error msg)
        /\ (forall k, In k (Object_keys (PObj props)) -> includes msg k = true)
        /\ (forall k, In k (Object_keys store) -> includes msg k = true))
  /\ (ptruthy (plookup "storyStore" props) = false ->
      ptruthy (plookup "storyStoreValue" props) = false ->
      evaluate (PObj props)
      = throw (Exn.Error "Unable to find Storybook story store")).
Proof.
  intros Hextract. split.
  - intros store Hstore Hcache Hfiles Hc Hs.
    exists (Exn.message (shapeError (PObj props) store)). split; [|split].
    + unfold evaluate. simpl pget. rewrite Hextract. simpl.
      rewrite Hstore. simpl. rewrite Hcache. simpl.
      now rewrite Hfiles, Hc, Hs.
    + intros k Hk. apply shapeError_names_properties. now left.
    + intros k Hk. apply shapeError_names_properties. now right.
  - intros H1 H2. unfold evaluate. simpl pget. rewrite Hextract. simpl.
    unfold getStoryStore. simpl. rewrite H1, H2.
    now rewrite !Bool.andb_false_r.
Qed.

Lemma evaluate_unsupported_shape_witness :
  exists msg,
    evaluate previewWithUnknownStore = throw (Exn.Error msg)
    /\ (forall k, In k ["channel"; "storyStoreValue"] -> includes msg k = true)
    /\ (forall k, In k ["storyIndex"; "hooks"] -> includes msg k = true).
Proof.
  apply (proj1 (evaluate_unsupported_shape
                  [ ("channel", PObj []);
                    ("storyStoreValue",
                     PObj [ ("storyIndex", PObj []); ("hooks", PObj []) ]) ]
                  eq_refl)
               (PObj [ ("storyIndex", PObj []); ("hooks", PObj []) ]));
    reflexivity.
Defined.

(** C5 (as stated) fails: [previewWithoutStore] exposes none of the known
    shapes, and the error of the lookup names none of its properties. *)
Lemma evaluate_without_store_generic_error :
  isFunction (pget previewWithoutStore "extract") = false
  /\ ptruthy (pget previewWithoutStore "storyStore") = false
  /\ ptruthy (pget previewWithoutStore "storyStoreValue") = false
  /\ Object_keys previewWithoutStore = ["channel"; "renderToCanvas"]
  /\ evaluate previewWithoutStore
     = throw (Exn.Error "Unable to find Storybook story store")
  /\ includes "Unable to find Storybook story store" "channel" = false
  /\ includes "Unable to find Storybook story store" "renderToCanvas" = false.
Proof. repeat split; reflexivity. Qed.

End RegistryFacts.

(** ** Prop type stringification *)

Section StringifyFacts.
Import JsString Json Types Generators Inputs.

(** Induction on plain data, with the induction hypothesis for the items of
    an array and the property values of an object. *)
Lemma JSValue_induction (P : JSValue -> Prop) :
  P VUndefined -> P VNull ->
  (forall b, P (VBool b)) -> (forall n, P (VNum n)) -> (forall s, P (VStr s)) ->
  (forall items, Forall P items -> P (VArr items)) ->
  (forall props, Forall (fun p => P (snd p)) props -> P (VObj props)) ->
  forall v, P v.
Proof.
  intros Hu Hn Hb Hz Hs Ha Ho.
  fix IH 1. intros [ | | b | n | s | items | props].
  - exact Hu.
  - exact Hn.
  - apply Hb.
  - apply Hz.
  - apply Hs.
  - apply Ha.
    exact ((fix all (l : list JSValue) : Forall P l :=
              match l with
              | [] => Forall_nil P
              | x :: rest => Forall_cons x (IH x) (all rest)
              end) items).
  - apply Ho.
    exact ((fix all (l : list (string * JSValue)) : Forall (fun p => P (snd p)) l :=
              match l with
              | [] => Forall_nil _
              | p :: rest => Forall_cons p (IH (snd p)) (all rest)
              end) props).
Qed.

(** The equation of [stringifyPropType] on an object. *)
Lemma stringifyPropType_object (props : list (string * JSValue)) :
  stringifyPropType (VObj props) =
  match lookup "name" props with
  | VStr name =>
      let value := lookup "value" props in
      if (String.eqb name "enum" && isArray value)%bool then valueListText value
      else if (String.eqb name "union" && isArray value)%bool then valueListText value
      else if (String.eqb name "array" && truthy value)%bool then
        element <- stringifyValueProperty props ;; ok (element ++ "[]")
      else if (String.eqb name "signature"
               && match get_opt (first_opt value) "value" with
                  | VStr f => String.eqb f "function"
                  | _ => false
                  end)%bool then ok "function"
      else ok name
  | _ => ok (interpolate (stringify (VObj props)))
  end.
Proof. reflexivity. Qed.

Lemma stringifyValueProperty_lookup (props : list (string * JSValue)) :
  truthy (lookup "value" props) = true ->
  stringifyValueProperty props = stringifyPropType (lookup "value" props).
Proof.
  induction props as [|[k v] rest IH]; intros H.
  - discriminate H.
  - cbn [stringifyValueProperty lookup] in *.
    destruct (String.eqb "value" k); [reflexivity | now apply IH].
Qed.


Lemma mapM_entryText_defined (entries : list JSValue) :
  forallb (fun x => negb (nullish x)) entries = true ->
  exists texts, mapM entryText entries = ok texts.
Proof.
  induction entries as [|entry rest IH]; intros H; [now exists []|].
  cbn [forallb] in H. apply andb_prop in H as [Hn Hrest].
  destruct (IH Hrest) as [texts E].
  assert (exists t, entryText entry = ok t) as [t Et].
  { unfold entryText. apply Bool.negb_true_iff in Hn. rewrite Hn.
    destruct (get entry "value"); eexists; reflexivity. }
  exists (t :: texts). cbn [mapM]. rewrite Et. cbn [bind]. now rewrite E.
Qed.

Lemma noNullishItems_lookup (k : string) (props : list (string * JSValue)) :
  Spec.noNullishItems (VObj props) = true ->
  Spec.noNullishItems (lookup k props) = true.
Proof.
  cbn [Spec.noNullishItems].
  induction props as [|[k' v] rest IH]; intros H; [reflexivity|].
  cbn [forallb snd] in H. apply andb_prop in H as [Hv Hrest].
  cbn [lookup]. destruct (String.eqb k k'); [exact Hv | now apply IH].
Qed.

Lemma Forall_lookup (P : JSValue -> Prop) (k : string)
    (props : list (string * JSValue)) :
  P VUndefined -> Forall (fun p => P (snd p)) props -> P (lookup k props).
Proof.
  intros Hu. induction 1 as [|[k' v] rest Hv _ IH]; [exact Hu|].
  cbn [lookup]. destruct (String.eqb k k'); [exact Hv | exact IH].
Qed.

(** [stringifyPropType] returns on every value whose arrays hold no
    [null] and no [undefined]. *)
Lemma stringifyPropType_total (type : JSValue) :
  Spec.noNullishItems type = true -> exists s, stringifyPropType type = ok s.
Proof.
  induction type as [ | | b | n | s | items IH | props IH] using JSValue_induction;
    intros Hwf; try (eexists; reflexivity).
  - destruct b; eexists; reflexivity.
  - cbn. destruct (Z.eqb n 0); eexists; reflexivity.
  - cbn. destruct (JsString.truthy s); eexists; reflexivity.
  - rewrite stringifyPropType_object.
    destruct (lookup "name" props) eqn:Ename; try (eexists; reflexivity).
    cbv zeta.
    pose proof (noNullishItems_lookup "value" props Hwf) as Hvalue.
    assert (Hlist : exists t, valueListText (lookup "value" props) = ok t).
    { unfold valueListText. destruct (lookup "value" props) as [ | | | | |entries| ];
        try (eexists; reflexivity).
      cbn [Spec.noNullishItems] in Hvalue.
      destruct (mapM_entryText_defined entries) as [texts E].
      - rewrite forallb_forall in *. intros x Hx.
        specialize (Hvalue x Hx). now apply andb_prop in Hvalue as [? _].
      - rewrite E. eexists; reflexivity. }
    destruct (String.eqb s "enum" && isArray (lookup "value" props))%bool;
      [exact Hlist|].
    destruct (String.eqb s "union" && isArray (lookup "value" props))%bool;
      [exact Hlist|].
    destruct (String.eqb s "array" && truthy (lookup "value" props))%bool eqn:Earr.
    + apply andb_prop in Earr as [_ Htruthy].
      rewrite (stringifyValueProperty_lookup props Htruthy).
      destruct (Forall_lookup
                  (fun v => Spec.noNullishItems v = true ->
                            exists s, stringifyPropType v = ok s)
                  "value" props) as [element E]; auto.
      * intros _. eexists; reflexivity.
      * rewrite E. eexists; reflexivity.
    + clear Earr.
      match goal with
      | |- context [if ?c then _ else _] => destruct c
      end; eexists; reflexivity.
Qed.

End StringifyFacts.

Section StringifyRules.
Import JsString Json Types Generators Inputs.



(** The props table example of the specification: type [a b], required
    [Yes], default [a]. *)
Example props_table_row :
  generateComponentPropsTable
    (extractComponentProps
       (Some (mkComponent
                (Some (mkDocgenInfo None
                         (Some [ ("variant",
                                  mkDocgenProp None variantType
                                    (Some (DefaultString "a")) (Some true)) ]))))))
  = ok [ "";
         "| Name | Type | Required | Default | Description |";
         "|------|------|----------|---------|-------------|";
         "| `variant` | `a b` | Yes | a |  |";
         "" ].
Proof. reflexivity. Qed.

(** In the props table a prop without a type is given the type [{}] by
    [extractComponentProps], which renders as its JSON encoding. *)
Example props_table_missing_type :
  generateComponentPropsTable
    (extractComponentProps
       (Some (mkComponent
                (Some (mkDocgenInfo None
                         (Some [ ("size",
                                  mkDocgenProp (Some "The size.") VUndefined
                                    None None) ]))))))
  = ok [ "";
         "| Name | Type | Required | Default | Description |";
         "|------|------|----------|---------|-------------|";
         "| `size` | `{}` | No |  | The size. |";
         "" ].
Proof. reflexivity. Qed.

(** A value list with a [null] entry makes the call throw. *)
Example stringifyPropType_null_entry :
  stringifyPropType (VObj [("name", VStr "enum"); ("value", VArr [VNull])])
  = throw (Exn.TypeError "Cannot read properties of null or undefined (reading 'value')").
Proof. reflexivity. Qed.

End StringifyRules.

(** ** The code block rule *)

Section RendererFacts.
Import JsString Renderer Inputs.

Lemma Node_induction (P : Node -> Prop) :
  (forall data, P (Text data)) ->
  (forall nodeName attributes children,
      Forall P children -> P (Element nodeName attributes children)) ->
  forall n, P n.
Proof.
  intros Ht He. fix IH 1. intros [data | nodeName attributes children].
  - apply Ht.
  - apply He.
    exact ((fix all (l : list Node) : Forall P l :=
              match l with
              | [] => Forall_nil P
              | c :: rest => Forall_cons c (IH c) (all rest)
              end) children).
Qed.

Lemma find_app {A : Type} (f : A -> bool) (l1 l2 : list A) :
  List.find f (l1 ++ l2)%list
  = match List.find f l1 with
    | Some x => Some x
    | None => List.find f l2
    end.
Proof.
  induction l1 as [|x l1 IH]; simpl; [reflexivity|].
  destruct (f x); [reflexivity | exact IH].
Qed.

Lemma firstMatch_element (nodeName : string) (attributes : list (string * string))
    (children : list Node) :
  firstMatch (Element nodeName attributes children)
  = if matchesLanguageSelector (Element nodeName attributes children)
    then Some (Element nodeName attributes children)
    else firstMatchAmong children.
Proof. reflexivity. Qed.

Lemma descendantsOrSelf_element (nodeName : string)
    (attributes : list (string * string)) (children : list Node) :
  descendantsOrSelf (Element nodeName attributes children)
  = Element nodeName attributes children :: flat_map descendantsOrSelf children.
Proof. reflexivity. Qed.

Lemma firstMatchAmong_find (children : list Node) :
  Forall (fun c => firstMatch c = List.find matchesLanguageSelector (descendantsOrSelf c))
         children ->
  firstMatchAmong children
  = List.find matchesLanguageSelector (flat_map descendantsOrSelf children).
Proof.
  induction 1 as [|c rest Hc _ IH]; [reflexivity|].
  cbn [firstMatchAmong flat_map]. rewrite find_app, Hc, IH. reflexivity.
Qed.

(** The search of [querySelector] visits the nodes in document order. *)
Lemma firstMatch_find (n : Node) :
  firstMatch n = List.find matchesLanguageSelector (descendantsOrSelf n).
Proof.
  induction n as [data | nodeName attributes children IH] using Node_induction.
  - reflexivity.
  - rewrite firstMatch_element, descendantsOrSelf_element. cbn [List.find].
    destruct (matchesLanguageSelector (Element nodeName attributes children));
      [reflexivity|].
    now apply firstMatchAmong_find.
Qed.

Lemma querySelector_find (node : Node) :
  querySelector node = List.find matchesLanguageSelector (descendants node).
Proof.
  destruct node as [data | nodeName attributes children]; [reflexivity|].
  cbn [querySelector descendants]. apply firstMatchAmong_find.
  apply Forall_forall. intros c _. apply firstMatch_find.
Qed.

(** C8 (as amended).  For every [<pre>] element the rule emits the
    trimmed content unchanged when it begins with a fence marker, and
    otherwise a fenced block tagged with a language read off the first
    descendant, in document order, whose class attribute contains
    [language-]: the rest of the first of its space-separated class names
    that begins with [language-], and the empty tag when there is no such
    descendant or no such class name. *)
Theorem codeBlock_rule (content : string) (node : Node) :
  codeBlock_filter node = true ->
  (startsWith (trim content) fence = true ->
   codeBlock_replacement content node = trim content)
  /\ (startsWith (trim content) fence = false ->
      exists language,
        codeBlock_replacement content node = Spec.fenced language (trim content)
        /\ match List.find matchesLanguageSelector (descendants node) with
           | None => language = ""
           | Some el =>
               match List.find (fun cls => startsWith cls "language-")
                               (classTokens el) with
               | Some cls => cls = "language-" ++ language
               | None => language = ""
               end
           end).
Proof.
  intros _. unfold codeBlock_replacement. split; intros H; rewrite H.
  - reflexivity.
  - exists (codeBlock_language node). split; [reflexivity|].
    unfold codeBlock_language. rewrite querySelector_find.
    destruct (List.find matchesLanguageSelector (descendants node)) as [el|];
      [|reflexivity].
    unfold classTokens.
    destruct (List.find (fun cls => startsWith cls "language-")
                        (split (className el) " ")) as [cls|] eqn:E;
      [|reflexivity].
    apply find_some in E as [_ E].
    apply startsWith_inv in E as [rest ->].
    now rewrite replace_prefix.
Qed.

Lemma codeBlock_rule_witness :
  (startsWith (trim "const x = 1;") fence = true ->
   codeBlock_replacement "const x = 1;" tsxBlock = trim "const x = 1;")
  /\ (startsWith (trim "const x = 1;") fence = false ->
      exists language,
        codeBlock_replacement "const x = 1;" tsxBlock
        = Spec.fenced language (trim "const x = 1;")
        /\ match List.find matchesLanguageSelector (descendants tsxBlock) with
           | None => language = ""
           | Some el =>
               match List.find (fun cls => startsWith cls "language-")
                               (classTokens el) with
               | Some cls => cls = "language-" ++ language
               | None => language = ""
               end
           end).
Proof. apply (codeBlock_rule "const x = 1;" tsxBlock eq_refl). Defined.

(** The code block example of the specification. *)
Example codeBlock_tsx :
  codeBlock_replacement "const x = 1;" tsxBlock
  = Spec.fenced "tsx" "const x = 1;".
Proof. reflexivity. Qed.

(** C8 (as stated) fails: in [shadowedBlock] a descendant carries the
    class token [language-tsx], yet the block is not tagged with the
    language of any descendant that carries such a token, because an
    earlier descendant has [language-] inside another class name. *)
Lemma codeBlock_ignores_later_language :
  codeBlock_filter shadowedBlock = true
  /\ startsWith (trim "x") fence = false
  /\ (exists el, In el (descendants shadowedBlock) /\ Spec.carriesLanguage el "tsx")
  /\ (forall el name,
         In el (descendants shadowedBlock) ->
         Spec.carriesLanguage el name ->
         codeBlock_replacement "x" shadowedBlock <> Spec.fenced name "x").
Proof.
  repeat apply conj; try reflexivity.
  - exists (Element "CODE" [("class", "language-tsx")] [Text "x"]).
    split; [right; left; reflexivity | left; reflexivity].
  - intros el name Hin Hcarry.
    unfold Spec.carriesLanguage, classTokens in Hcarry.
    cbn in Hin. destruct Hin as [<- | [<- | [<- | []]]]; cbn in Hcarry;
      destruct Hcarry as [Heq | []]; try discriminate Heq.
    injection Heq as <-. vm_compute. discriminate.
Qed.

End RendererFacts.

(** ** Summary text *)

Section SummaryFacts.
Import JsString Types Summary Inputs.

(** C9.  The summary text depends on nothing but the run configuration
    and the item collection: whatever the ambient state of two invocations
    (the clock in particular), equal arguments give the same text. *)
Theorem summary_text_deterministic (args : Args) (data : list StorybookStoreItem)
    (first second : Ambient) :
  summaryFileContent args data first = summaryFileContent args data second.
Proof. reflexivity. Qed.

(** The sitemap, by contrast, carries the date of the run. *)
Example sitemap_depends_on_date :
  generateSitemapContent (mkArgs "dist" "" "Summary" "" []) []
                         (mkAmbient "2025-01-01")
  <> generateSitemapContent (mkArgs "dist" "" "Summary" "" []) []
                            (mkAmbient "2025-01-02").
Proof. vm_compute. discriminate. Qed.

(** The summary of one described component and one reference. *)
Example summary_of_plainComponent :
  generateSummaryContent
    (mkArgs "dist" "https://example.com" "Docs" "All components."
            [mkRef "Charts" "https://charts.example.com/"])
    [plainComponent] (mkAmbient "2025-01-01")
  = [ "# Docs"; ""; note; ""; "All components."; "";
      "- [Components/Badge](https://example.com/llms/components-badge.html): A badge.";
      ""; "## Optional"; "";
      "- [Charts](https://charts.example.com/llms.txt)"; "" ].
Proof. reflexivity. Qed.

End SummaryFacts.

(** * Further properties of the code *)

(** ** Splitting at one character *)

Section SplitFacts.
Import JsString Notions.

Variable c : ascii.

Let sep : string := String c EmptyString.

Lemma split_char_nil : split "" sep = [""].
Proof. reflexivity. Qed.

Lemma split_char_cons (a : ascii) (s : string) :
  split (String a s) sep
  = if Ascii.eqb c a then "" :: split s sep
    else match split s sep with
         | p :: ps => String a p :: ps
         | [] => [String a ""]
         end.
Proof.
  unfold split, sep. cbn [split_go String.length Nat.sub].
  unfold startsWith. cbn [drop_prefix].
  destruct (Ascii.eqb c a); reflexivity.
Qed.

Lemma split_char_nonempty (s : string) : split s sep <> [].
Proof.
  destruct s as [|a s]; [discriminate|].
  rewrite split_char_cons. destruct (Ascii.eqb c a); [discriminate|].
  destruct (split s sep); discriminate.
Qed.

(** Splitting distributes over a separator. *)
Lemma split_char_app (a b : string) :
  split (a ++ sep ++ b) sep = (split a sep ++ split b sep)%list.
Proof.
  induction a as [|x a IH].
  - change ("" ++ sep ++ b) with (String c b).
    rewrite split_char_cons, Ascii.eqb_refl. reflexivity.
  - change (String x a ++ sep ++ b) with (String x (a ++ sep ++ b)).
    rewrite !split_char_cons, IH.
    destruct (Ascii.eqb c x); [reflexivity|].
    destruct (split a sep) as [|p ps] eqn:E; [|reflexivity].
    now destruct (split_char_nonempty a).
Qed.

(** No piece holds the separator. *)
Lemma split_char_pieces (s piece : string) :
  In piece (split s sep) -> lacks c piece.
Proof.
  unfold lacks. revert piece. induction s as [|a s IH]; intros piece Hin.
  - destruct Hin as [<-|[]]. intros [].
  - rewrite split_char_cons in Hin.
    destruct (Ascii.eqb_spec c a) as [->|Hne].
    + destruct Hin as [<-|Hin]; [intros []|now apply IH].
    + destruct (split s sep) as [|p ps] eqn:E.
      * now destruct (split_char_nonempty s).
      * destruct Hin as [<-|Hin].
        -- cbn. intros [Heq|Hp]; [now apply Hne|].
           apply (IH p); [now left | exact Hp].
        -- apply IH. now right.
Qed.

End SplitFacts.

(** ** Requests without an extension *)

Section IndexFacts.
Import JsString Notions StaticRouting.

Lemma filter_empty_segments (segs : list string) :
  Forall (fun seg => seg = "") segs ->
  filter (fun a => negb (String.eqb a "")) segs = [].
Proof.
  induction 1 as [|seg segs -> _ IH]; [reflexivity|]. cbn. exact IH.
Qed.

Lemma indexLast_index : indexLast "index.html".
Proof. exists [], []. split; [reflexivity | constructor]. Qed.

Lemma indexLast_nonempty (s : string) : indexLast s -> s <> "".
Proof.
  intros (before & after & E & _) ->. cbn in E.
  destruct before as [|b [|b' before]]; cbn in E; discriminate.
Qed.

Lemma indexLast_last_component (s : string) :
  indexLast s -> Path.last_component s = "index.html".
Proof.
  intros (before & after & E & Hempty). unfold Path.last_component.
  rewrite E, rev_app_distr. cbn [List.rev].
  rewrite <- !app_assoc, filter_app.
  rewrite (filter_empty_segments (List.rev after)) by now apply Forall_rev.
  reflexivity.
Qed.

Lemma indexLast_extname (s : string) : indexLast s -> Path.extname s = ".html".
Proof.
  intros H. unfold Path.extname. rewrite (indexLast_last_component s H).
  reflexivity.
Qed.

Lemma indexLast_prepend (y s : string) : indexLast s -> indexLast (y ++ "/" ++ s).
Proof.
  intros (before & after & E & Hempty).
  exists (split y "/" ++ before)%list, after. split; [|exact Hempty].
  rewrite (split_char_app "/"%char), E. now rewrite app_assoc.
Qed.

Lemma indexLast_slash (s : string) : indexLast s -> indexLast ("/" ++ s).
Proof. apply (indexLast_prepend ""). Qed.

Lemma indexLast_append_slash (s : string) : indexLast s -> indexLast (s ++ "/").
Proof.
  intros (before & after & E & Hempty).
  exists before, (after ++ [""])%list. split.
  - change (s ++ "/") with (s ++ "/" ++ "").
    rewrite (split_char_app "/"%char), E. cbn [split split_go].
    now rewrite <- app_assoc.
  - apply Forall_app. split; [exact Hempty | now constructor].
Qed.

Lemma fold_push_empty_segments (allow : bool) (segs stack : list string) :
  Forall (fun seg => seg = "") segs ->
  fold_left (Path.push_segment allow) segs stack = stack.
Proof.
  intros H. revert stack. induction H as [|seg segs -> _ IH]; intros stack.
  - reflexivity.
  - cbn [fold_left]. rewrite <- (IH stack) at 2. reflexivity.
Qed.

Lemma join_snoc (l : list string) (x sep : string) :
  l <> [] -> join (l ++ [x]) sep = join l sep ++ sep ++ x.
Proof.
  unfold join. induction l as [|a l IH]; intros Hne; [contradiction|].
  destruct l as [|b l].
  - reflexivity.
  - change (String.concat sep ((a :: b :: l) ++ [x]))
      with (a ++ sep ++ String.concat sep ((b :: l) ++ [x])).
    rewrite IH by discriminate.
    change (String.concat sep (a :: b :: l))
      with (a ++ sep ++ String.concat sep (b :: l)).
    now rewrite !append_assoc.
Qed.

Lemma indexLast_join_snoc (l : list string) :
  indexLast (join (l ++ ["index.html"]) "/").
Proof.
  destruct l as [|a l].
  - exact indexLast_index.
  - rewrite join_snoc by discriminate.
    apply indexLast_prepend, indexLast_index.
Qed.

Lemma indexLast_normalizeString (s : string) (allow : bool) :
  indexLast s -> indexLast (Path.normalizeString s allow).
Proof.
  intros (before & after & E & Hempty). unfold Path.normalizeString.
  rewrite E, fold_left_app. cbn [fold_left].
  rewrite (fold_push_empty_segments allow after) by exact Hempty.
  change (Path.push_segment allow (fold_left (Path.push_segment allow) before [])
                            "index.html")
    with ("index.html" :: fold_left (Path.push_segment allow) before []).
  cbn [List.rev]. apply indexLast_join_snoc.
Qed.

Lemma indexLast_normalize (s : string) : indexLast s -> indexLast (Path.normalize s).
Proof.
  intros H. unfold Path.normalize.
  destruct (String.eqb_spec s "") as [->|_]; [now destruct (indexLast_nonempty "" H)|].
  cbv zeta.
  pose proof (indexLast_normalizeString s (negb (startsWith s "/")) H) as Hp.
  destruct (String.eqb_spec (Path.normalizeString s (negb (startsWith s "/"))) "")
    as [E|_]; [now destruct (indexLast_nonempty _ Hp)|].
  destruct (endsWith s "/"), (startsWith s "/");
    repeat first [apply indexLast_slash | apply indexLast_append_slash];
    exact Hp.
Qed.

Lemma indexLast_join_path (filePath : string) :
  indexLast (Path.join_path [filePath; "index.html"]).
Proof.
  unfold Path.join_path. cbn [filter].
  destruct (String.eqb filePath ""); cbn [negb].
  - apply indexLast_normalize. exact indexLast_index.
  - apply indexLast_normalize. apply indexLast_prepend, indexLast_index.
Qed.

Lemma resolve_loop_cons (p : string) (l : list string) (r : string) :
  Path.resolve_loop (p :: l) r
  = if String.eqb p "" then Path.resolve_loop l r
    else if startsWith p "/" then (p ++ "/" ++ r, true)
         else Path.resolve_loop l (p ++ "/" ++ r).
Proof. reflexivity. Qed.

Lemma indexLast_resolve_loop (l : list string) (r : string) :
  indexLast r -> indexLast (fst (Path.resolve_loop l r)).
Proof.
  revert r. induction l as [|p l IH]; intros r H; [exact H|].
  rewrite resolve_loop_cons.
  destruct (String.eqb p ""); [now apply IH|].
  destruct (startsWith p "/"); [|apply IH]; now apply indexLast_prepend.
Qed.

Lemma indexLast_resolve (cwd distPath file : string) :
  indexLast file -> indexLast (Path.resolve cwd [distPath; file]).
Proof.
  intros H. unfold Path.resolve. cbn [List.rev app].
  assert (Hloop : indexLast (fst (Path.resolve_loop [file; distPath; cwd] ""))).
  { rewrite resolve_loop_cons.
    destruct (String.eqb_spec file "") as [->|_];
      [now destruct (indexLast_nonempty "" H)|].
    destruct (startsWith file "/"); [|apply indexLast_resolve_loop];
      now apply indexLast_append_slash. }
  destruct (Path.resolve_loop [file; distPath; cwd] "") as [rp absolute].
  cbn [fst] in Hloop.
  pose proof (indexLast_normalizeString rp (negb absolute) Hloop) as Hp.
  destruct absolute; [now apply indexLast_slash|].
  destruct (String.eqb_spec (Path.normalizeString rp (negb false)) "") as [E|_];
    [now destruct (indexLast_nonempty _ Hp) | exact Hp].
Qed.

(** X1.  A request whose path has no extension is looked up as the
    [index.html] of that path, whatever the root and the path are, and a
    200 response to it is served as [text/html]. *)
Theorem extensionless_request_serves_index (cwd : string) (fs : FileSystem)
    (distPath pathname : string) :
  Path.extname (if startsWith pathname "/" then substring_from 1 pathname
                else pathname) = "" ->
  Path.last_component (requestedPath cwd distPath pathname) = "index.html"
  /\ (status (fst (setupStaticRouting cwd fs distPath pathname)) = 200%Z ->
      contentType (fst (setupStaticRouting cwd fs distPath pathname))
      = Some "text/html").
Proof.
  intros Hext.
  assert (Hidx : indexLast (requestedPath cwd distPath pathname)).
  { unfold requestedPath. rewrite Hext. cbn [JsString.truthy String.eqb negb].
    apply indexLast_resolve, indexLast_join_path. }
  split; [now apply indexLast_last_component|].
  unfold setupStaticRouting, existsSync, readFile.
  destruct (fs (requestedPath cwd distPath pathname)) as [[content|]|];
    destruct (startsWith (requestedPath cwd distPath pathname)
                (Path.resolve cwd [distPath]));
    cbn [fst status contentType]; intros Hstatus; try discriminate Hstatus.
  now rewrite (indexLast_extname _ Hidx).
Qed.

Lemma extensionless_request_serves_index_witness :
  Path.last_component (requestedPath "/work" "storybook-static" "/docs/")
  = "index.html"
  /\ (status (fst (setupStaticRouting "/work" (fun _ => None)
                     "storybook-static" "/docs/")) = 200%Z ->
      contentType (fst (setupStaticRouting "/work" (fun _ => None)
                          "storybook-static" "/docs/"))
      = Some "text/html").
Proof.
  apply (extensionless_request_serves_index "/work" (fun _ => None)
           "storybook-static" "/docs/").
  reflexivity.
Defined.

(** The three answers of the handler, and what it touches: 200 exactly
    for a regular file whose resolved path begins with the resolved root,
    500 exactly for a directory there, 404 otherwise; the only path it
    inspects is the resolved one, and it reads it only in the first two
    cases. *)
Theorem setupStaticRouting_outcomes (cwd : string) (fs : FileSystem)
    (distPath pathname : string) :
  let fullPath := requestedPath cwd distPath pathname in
  let inside := startsWith fullPath (Path.resolve cwd [distPath]) in
  let answer := setupStaticRouting cwd fs distPath pathname in
  match fs fullPath with
  | Some (File content) =>
      if inside
      then answer = (mkResponse 200 (Some (getContentType (Path.extname fullPath)))
                                content corsHeaders,
                     [Stat fullPath; Read fullPath])
      else answer = (notFound, [Stat fullPath])
  | Some Directory =>
      if inside then answer = (serverError, [Stat fullPath; Read fullPath])
      else answer = (notFound, [Stat fullPath])
  | None => answer = (notFound, [Stat fullPath])
  end.
Proof.
  cbv zeta. unfold setupStaticRouting, existsSync, readFile.
  destruct (fs (requestedPath cwd distPath pathname)) as [[content|]|];
    destruct (startsWith (requestedPath cwd distPath pathname)
                (Path.resolve cwd [distPath])); reflexivity.
Qed.

End IndexFacts.

(** ** Props, tables and component pages *)

Section ComponentFacts.
Import JsString Json Types Generators.

Lemma mapM_Forall2 {A B : Type} (f : A -> result B) (R : A -> B -> Prop)
    (xs : list A) :
  Forall (fun x => exists y, f x = ok y /\ R x y) xs ->
  exists ys, mapM f xs = ok ys /\ Forall2 R xs ys.
Proof.
  induction 1 as [|x xs (y & Ey & Hy) _ (ys & Eys & Hys)].
  - exists []. split; [reflexivity | constructor].
  - exists (y :: ys). split; [|now constructor].
    cbn [mapM]. rewrite Ey. cbn [bind]. now rewrite Eys.
Qed.

(** X2.  [extractComponentProps] keeps the documented props in their order and
    leaves out exactly the one named [children]. *)
Theorem extractComponentProps_skips_children (component : StorybookComponent)
    (docgen : DocgenInfo) (props : list (string * DocgenProp)) :
  __docgenInfo component = Some docgen ->
  docgen_props docgen = Some props ->
  map prop_name (extractComponentProps (Some component))
  = filter (fun name => negb (String.eqb name "children")) (map fst props)
  /\ ~ In "children" (map prop_name (extractComponentProps (Some component))).
Proof.
  intros Hd Hp. unfold extractComponentProps. rewrite Hd, Hp.
  assert (E : map prop_name
                (map (fun entry => propOfArg (fst entry) (snd entry))
                   (filter (fun entry => negb (String.eqb (fst entry) "children"))
                      props))
              = filter (fun name => negb (String.eqb name "children")) (map fst props)).
  { clear. induction props as [|[name arg] rest IH]; [reflexivity|].
    cbn [filter map fst]. destruct (String.eqb name "children"); cbn [negb].
    - exact IH.
    - cbn [map prop_name propOfArg fst snd]. now rewrite IH. }
  split; [exact E|].
  rewrite E. intros Hin. apply filter_In in Hin as [_ Hin].
  now rewrite String.eqb_refl in Hin.
Qed.

Lemma extractComponentProps_skips_children_witness :
  map prop_name
      (extractComponentProps
         (Some (mkComponent
                  (Some (mkDocgenInfo None
                           (Some [ ("size", mkDocgenProp None (VStr "string") None None);
                                   ("children", mkDocgenProp None (VStr "node") None None);
                                   ("as", mkDocgenProp None (VStr "string") None None) ]))))))
  = ["size"; "as"]
  /\ ~ In "children"
        (map prop_name
           (extractComponentProps
              (Some (mkComponent
                       (Some (mkDocgenInfo None
                                (Some [ ("size", mkDocgenProp None (VStr "string") None None);
                                        ("children", mkDocgenProp None (VStr "node") None None);
                                        ("as", mkDocgenProp None (VStr "string") None None) ]))))))).
Proof.
  apply (extractComponentProps_skips_children
           (mkComponent
              (Some (mkDocgenInfo None
                       (Some [ ("size", mkDocgenProp None (VStr "string") None None);
                               ("children", mkDocgenProp None (VStr "node") None None);
                               ("as", mkDocgenProp None (VStr "string") None None) ]))))
           _ _ eq_refl eq_refl).
Defined.

(** A row of the props table begins with the name of its prop. *)
Lemma tableRow_defined (prop : StorybookComponentProp) :
  Spec.noNullishItems (prop_type prop) = true ->
  exists row,
    tableRow prop = ok row
    /\ startsWith row ("| `" ++ prop_name prop ++ "` | `") = true.
Proof.
  intros Hwf. unfold tableRow.
  destruct (stringifyPropType_total _ Hwf) as [type ->]. cbn [bind].
  eexists. split; [reflexivity|].
  match goal with
  | |- startsWith ?row _ = true =>
      replace row
        with (("| `" ++ prop_name prop ++ "` | `")
                ++ (type ++ "` | "
                      ++ (if prop_required prop then "Yes" else "No") ++ " | "
                      ++ prop_defaultValue prop ++ " | "
                      ++ replace_all_char (prop_description prop) nl_char " "
                      ++ " |"))
  end.
  - apply startsWith_app.
  - unfold join. cbn [String.concat]. rewrite !append_assoc. reflexivity.
Qed.

(** X3.  For props whose types hold no [null] or [undefined] entry the table
    is generated: a blank line, the two header lines, one row per prop in
    order, each beginning with the name of its prop, and a blank line. *)
Theorem generateComponentPropsTable_rows (props : list StorybookComponentProp) :
  props <> [] ->
  Forall (fun prop => Spec.noNullishItems (prop_type prop) = true) props ->
  exists rows,
    generateComponentPropsTable props
    = ok ([ "";
            "| Name | Type | Required | Default | Description |";
            "|------|------|----------|---------|-------------|" ]
            ++ rows ++ [""])%list
    /\ Forall2 (fun prop row =>
                  startsWith row ("| `" ++ prop_name prop ++ "` | `") = true)
               props rows.
Proof.
  intros Hne Hwf.
  destruct (mapM_Forall2 tableRow
              (fun prop row =>
                 startsWith row ("| `" ++ prop_name prop ++ "` | `") = true)
              props) as (rows & E & Hrows).
  { eapply Forall_impl; [|exact Hwf]. intros prop. apply tableRow_defined. }
  exists rows. split; [|exact Hrows].
  unfold generateComponentPropsTable.
  destruct props as [|prop rest]; [contradiction|].
  rewrite E. reflexivity.
Qed.

Lemma generateComponentPropsTable_rows_witness :
  exists rows,
    generateComponentPropsTable
      [mkProp "size" "The size." (VStr "string") "" false]
    = ok ([ "";
            "| Name | Type | Required | Default | Description |";
            "|------|------|----------|---------|-------------|" ]
            ++ rows ++ [""])%list
    /\ Forall2 (fun prop row =>
                  startsWith row ("| `" ++ prop_name prop ++ "` | `") = true)
               [mkProp "size" "The size." (VStr "string") "" false] rows.
Proof.
  apply (generateComponentPropsTable_rows
           [mkProp "size" "The size." (VStr "string") "" false]).
  - discriminate.
  - repeat constructor.
Defined.

Lemma generateComponentPropsTable_defined (props : list StorybookComponentProp) :
  Forall (fun prop => Spec.noNullishItems (prop_type prop) = true) props ->
  exists table, generateComponentPropsTable props = ok table.
Proof.
  intros Hwf. unfold generateComponentPropsTable.
  destruct props as [|prop rest]; [eexists; reflexivity|].
  destruct (mapM_Forall2 tableRow (fun _ _ => True) (prop :: rest)) as (rows & -> & _).
  - eapply Forall_impl; [|exact Hwf]. intros p Hp.
    destruct (tableRow_defined p Hp) as (row & E & _). now exists row.
  - eexists; reflexivity.
Qed.

Lemma subcomponentLines_defined (entry : string * option StorybookComponent) :
  Notions.documentedTypes (snd entry) ->
  exists lines, subcomponentLines entry = ok lines.
Proof.
  destruct entry as [name [sub|]]; cbn [snd]; intros Hwf;
    [|eexists; reflexivity].
  unfold subcomponentLines.
  destruct (__docgenInfo sub) as [docgen|]; [|eexists; reflexivity].
  destruct (extractComponentProps (Some sub)) as [|prop rest] eqn:E.
  - eexists; reflexivity.
  - destruct (generateComponentPropsTable_defined (prop :: rest)) as [table ->].
    + unfold Notions.documentedTypes in Hwf. now rewrite E in Hwf.
    + eexists; reflexivity.
Qed.

(** X4.  The generator throws only on a missing stories collection or on a
    prop type with a [null] or [undefined] entry.  For an item that is not
    a prose page it otherwise returns the title heading first and, last, an
    Examples section with the lines of every variant in order. *)
Theorem component_text_shape (item : StorybookStoreItem)
    (entries : list (string * Story)) :
  stories item = Some entries ->
  ~ Spec.prosePageItem (map snd entries) ->
  Notions.documentedTypes (component (meta item)) ->
  (forall subs, subcomponents (meta item) = Some subs ->
                Forall (fun entry => Notions.documentedTypes (snd entry)) subs) ->
  exists middle,
    generateFullFileContentFromStory item
    = ok (("# " ++ title (meta item)) :: ""
            :: (middle ++ "## Examples" :: ""
                  :: flat_map exampleLines (map snd entries))%list).
Proof.
  intros Hs Hp Hprops Hsubs. unfold generateFullFileContentFromStory.
  rewrite Hs. cbn [Object_values bind ok].
  rewrite (not_prosePageItem_forallb _ Hp).
  assert (Hex : examplesSection (map snd entries)
                = "## Examples" :: "" :: flat_map exampleLines (map snd entries)).
  { unfold examplesSection. destruct (map snd entries) eqn:E; [|reflexivity].
    exfalso. now apply (not_prosePageItem_nonempty _ Hp). }
  rewrite Hex.
  assert (exists section,
             match extractComponentProps (component (meta item)) with
             | [] => ok []
             | _ :: _ =>
                 table <- generateComponentPropsTable
                            (extractComponentProps (component (meta item))) ;;
                 ok (["## Props"; ""] ++ table ++ [""])%list
             end = ok section) as [propsSection ->].
  { destruct (extractComponentProps (component (meta item))) as [|prop rest] eqn:E;
      [eexists; reflexivity|].
    destruct (generateComponentPropsTable_defined (prop :: rest)) as [table ->].
    - unfold Notions.documentedTypes in Hprops. now rewrite E in Hprops.
    - eexists; reflexivity. }
  cbn [bind].
  assert (exists section,
             match subcomponents (meta item) with
             | Some subs =>
                 sections <- mapM subcomponentLines subs ;;
                 ok (["## Subcomponents"; ""] ++ List.concat sections)%list
             | None => ok []
             end = ok section) as [subsSection ->].
  { destruct (subcomponents (meta item)) as [subs|]; [|eexists; reflexivity].
    destruct (mapM_Forall2 subcomponentLines (fun _ _ => True) subs)
      as (sections & -> & _).
    - eapply Forall_impl; [|exact (Hsubs subs eq_refl)]. intros entry He.
      destruct (subcomponentLines_defined entry He) as [lines E]. now exists lines.
    - eexists; reflexivity. }
  cbn [bind].
  exists (match extractStoryDescription item with
          | Some text => [text; ""]
          | None => []
          end ++ propsSection ++ subsSection)%list.
  unfold ok. f_equal. cbn [app]. do 2 f_equal. now rewrite <- !app_assoc.
Qed.

Lemma component_text_shape_witness :
  exists middle,
    generateFullFileContentFromStory Inputs.plainComponent
    = ok ("# Components/Badge" :: ""
            :: (middle ++ "## Examples" :: ""
                  :: flat_map exampleLines
                       (map snd (Inputs.variantsOf Inputs.plainComponent)))%list).
Proof.
  apply (component_text_shape Inputs.plainComponent _ eq_refl).
  - intros H. inversion H as [|s l Hd Hl]. discriminate Hd.
  - constructor.
  - intros subs H. discriminate H.
Defined.

End ComponentFacts.

(** ** Enrichment of the items *)

Section EnrichmentFacts.
Import JsString Json Types Registry Extraction Generators.

Variable convertHtmlToMarkdown : string -> result string.
Variable browser : string -> PageSession.

Let enrich := enrichItem convertHtmlToMarkdown browser.
Let enrichOne := enrichStory convertHtmlToMarkdown browser.

(** What [forEach] returns when it returns. *)
Lemma forEach_ok {A B : Type} (f : A -> Run B) (xs : list A) (ys : list B) :
  fst (forEach f xs) = ok ys -> Forall2 (fun x y => fst (f x) = ok y) xs ys.
Proof.
  revert ys. induction xs as [|x rest IH]; intros ys H.
  - cbn in H. inversion H. constructor.
  - cbn [forEach] in H. unfold andThen in H at 1.
    destruct (fst (f x)) as [e|y] eqn:Ex; [cbn in H; discriminate|].
    cbn [fst] in H. unfold andThen in H at 1.
    destruct (fst (forEach f rest)) as [e|ys'] eqn:E; [cbn in H; discriminate|].
    cbn in H. inversion H; subst. constructor; [exact Ex | now apply IH].
Qed.

Lemma enrichStory_ok (entry entry' : string * Story) :
  fst (enrichOne entry) = ok entry' ->
  fst entry' = fst entry
  /\ story_id (snd entry') = story_id (snd entry)
  /\ story_name (snd entry') = story_name (snd entry)
  /\ docsOnly (parameters (snd entry')) = docsOnly (parameters (snd entry))
  /\ (isDocsOnly (snd entry) = false -> entry' = entry)
  /\ (isDocsOnly (snd entry) = true ->
      fullSource (parameters (snd entry')) <> None).
Proof.
  unfold enrichOne, enrichStory. destruct entry as [key story].
  destruct (isDocsOnly story) eqn:Ed.
  - unfold andThen.
    destruct (fst (extractMDXStoryContentWithBrowser convertHtmlToMarkdown browser
                     (docsUrl (story_id story)))) as [e|content];
      [cbn; discriminate|].
    cbn. intros H. inversion H; subst. cbn in *.
    repeat split; try reflexivity; intros; congruence.
  - cbn. intros H. inversion H; subst. cbn in *.
    repeat split; try reflexivity; intros; congruence.
Qed.

Lemma enrichItem_meta (item item' : StorybookStoreItem) :
  fst (enrich item) = ok item' -> meta item' = meta item.
Proof.
  unfold enrich, enrichItem.
  destruct (stories item) as [[|entry rest]|].
  - destruct (endsWith (meta_fileName (meta item)) ".mdx").
    + unfold andThen.
      destruct (fst (extractMDXStoryContentWithBrowser _ _ _)); [cbn; discriminate|].
      cbn. intros H. now inversion H.
    + cbn. intros H. now inversion H.
  - unfold andThen.
    destruct (fst (forEach _ _)); [cbn; discriminate|].
    cbn. intros H. now inversion H.
  - cbn. intros H. now inversion H.
Qed.

(** X5.  The enrichment loop returns the items it was given, one for one and in
    order, each with its [meta] unchanged: no item is dropped, added or
    renamed. *)
Theorem enrichment_preserves_items (items result : list StorybookStoreItem) :
  fst (forEach enrich items) = ok result ->
  map meta result = map meta items.
Proof.
  intros H. apply forEach_ok in H.
  induction H as [|item item' items result Hi _ IH]; [reflexivity|].
  cbn [map]. now rewrite (enrichItem_meta item item' Hi), IH.
Qed.

(** X6.  After the enrichment of an item, every story variant that carries
    [docsOnly] has a [fullSource] (possibly the empty string); a variant
    without [docsOnly] is left exactly as it was, and the keys and order of
    a non-empty stories collection are kept. *)
Theorem enrichment_populates_prose_variants (item item' : StorybookStoreItem)
    (entries' : list (string * Story)) :
  fst (enrich item) = ok item' ->
  stories item' = Some entries' ->
  Forall (fun entry => isDocsOnly (snd entry) = true ->
                       fullSource (parameters (snd entry)) <> None) entries'
  /\ (forall entries,
         stories item = Some entries -> entries <> [] ->
         Forall2 (fun entry entry' =>
                    fst entry' = fst entry
                    /\ (isDocsOnly (snd entry) = false -> entry' = entry))
                 entries entries').
Proof.
  unfold enrich, enrichItem.
  destruct (stories item) as [[|entry rest]|] eqn:Es.
  - destruct (endsWith (meta_fileName (meta item)) ".mdx").
    + unfold andThen.
      destruct (fst (extractMDXStoryContentWithBrowser _ _ _)) as [e|content];
        [cbn; discriminate|].
      cbn. intros H Hs. inversion H; subst. cbn in Hs. inversion Hs; subst.
      split.
      * constructor; [|constructor]. cbn. intros _. discriminate.
      * intros entries He Hne. inversion He; subst. contradiction.
    + cbn. intros H Hs. inversion H; subst. rewrite Es in Hs. inversion Hs; subst.
      split; [constructor|]. intros entries He Hne. inversion He; subst.
      contradiction.
  - unfold andThen.
    destruct (fst (forEach (enrichStory convertHtmlToMarkdown browser)
                     (entry :: rest))) as [e|enriched] eqn:E; [cbn; discriminate|].
    cbn. intros H Hs. inversion H; subst. cbn in Hs. inversion Hs; subst.
    apply forEach_ok in E.
    assert (Hall : Forall2 (fun entry entry' =>
                      fst entry' = fst entry
                      /\ (isDocsOnly (snd entry) = false -> entry' = entry)
                      /\ (isDocsOnly (snd entry') = true ->
                          fullSource (parameters (snd entry')) <> None))
                   (entry :: rest) entries').
    { eapply Forall2_impl; [|exact E]. intros a b Hab.
      destruct (enrichStory_ok a b Hab) as (Hk & _ & _ & Hd & Hsame & Hfull).
      repeat split; [exact Hk | exact Hsame |].
      intros Hb. apply Hfull. unfold isDocsOnly in *. now rewrite <- Hd. }
    split.
    + clear -Hall. induction Hall as [|a b l l' (_ & _ & Hb) _ IH]; constructor;
        assumption.
    + intros entries He _. inversion He; subst.
      eapply Forall2_impl; [|exact Hall]. intros a b (Hk & Hsame & _).
      now split.
  - cbn. intros H Hs. inversion H; subst. rewrite Es in Hs. discriminate.
Qed.

(** X7.  A prose page file without stories is turned into a page with one
    synthetic variant, and the text then written for it is exactly the
    Markdown that the page extractor returned (the empty text when that is
    empty). *)
Theorem mdx_item_text_is_extracted_content (item item' : StorybookStoreItem) :
  stories item = Some [] ->
  endsWith (meta_fileName (meta item)) ".mdx" = true ->
  fst (enrich item) = ok item' ->
  exists content,
    fst (extractMDXStoryContentWithBrowser convertHtmlToMarkdown browser
           (docsUrl (id (meta item)))) = ok content
    /\ txtFileContent item' = ok content.
Proof.
  intros Hs Hmdx. unfold enrich, enrichItem. rewrite Hs, Hmdx. unfold andThen.
  destruct (fst (extractMDXStoryContentWithBrowser convertHtmlToMarkdown browser
                   (docsUrl (id (meta item))))) as [e|content];
    [cbn; discriminate|].
  cbn. intros H. inversion H; subst. exists content. split; [reflexivity|].
  destruct content; reflexivity.
Qed.

End EnrichmentFacts.

Lemma enrichment_preserves_items_witness :
  exists result,
    fst (Extraction.forEach
           (Extraction.enrichItem MoreInputs.plainRenderer
              (fun _ => MoreInputs.loadedPage "Hello"))
           [MoreInputs.mixedItem; Inputs.itemWithoutStories; MoreInputs.mdxItem])
    = ok result
    /\ map Types.meta result
       = map Types.meta
           [MoreInputs.mixedItem; Inputs.itemWithoutStories; MoreInputs.mdxItem].
Proof.
  eexists. split; [reflexivity|].
  apply (enrichment_preserves_items MoreInputs.plainRenderer
           (fun _ => MoreInputs.loadedPage "Hello")).
  reflexivity.
Defined.

Lemma enrichment_populates_prose_variants_witness :
  exists item' entries',
    fst (Extraction.enrichItem MoreInputs.plainRenderer
           (fun _ => Inputs.timedOutPage) MoreInputs.mixedItem) = ok item'
    /\ Types.stories item' = Some entries'
    /\ Forall (fun entry =>
                 Generators.isDocsOnly (snd entry) = true ->
                 Types.fullSource (Types.parameters (snd entry)) <> None)
              entries'.
Proof.
  eexists. eexists. split; [reflexivity|]. split; [reflexivity|].
  apply (enrichment_populates_prose_variants MoreInputs.plainRenderer
           (fun _ => Inputs.timedOutPage) MoreInputs.mixedItem _ _ eq_refl eq_refl).
Defined.

Lemma mdx_item_text_is_extracted_content_witness :
  exists item' content,
    fst (Extraction.enrichItem MoreInputs.plainRenderer
           (fun _ => MoreInputs.loadedPage "Hello") MoreInputs.mdxItem) = ok item'
    /\ fst (Extraction.extractMDXStoryContentWithBrowser MoreInputs.plainRenderer
              (fun _ => MoreInputs.loadedPage "Hello")
              (Extraction.docsUrl "concepts-setup")) = ok content
    /\ Generators.txtFileContent item' = ok content.
Proof.
  eexists. eexists. split; [reflexivity|].
  destruct (mdx_item_text_is_extracted_content MoreInputs.plainRenderer
              (fun _ => MoreInputs.loadedPage "Hello") MoreInputs.mdxItem _
              eq_refl eq_refl eq_refl) as (content & E1 & E2).
  cbn in E1. inversion E1; subst. split; [reflexivity | exact E2].
Defined.

(** ** Trimming *)

Section TrimFacts.
Import JsString.

Lemma list_ascii_of_string_app (a b : string) :
  list_ascii_of_string (a ++ b)
  = (list_ascii_of_string a ++ list_ascii_of_string b)%list.
Proof. induction a as [|x a IH]; cbn; [reflexivity | now rewrite IH]. Qed.

Lemma string_of_list_ascii_app (a b : list ascii) :
  string_of_list_ascii (a ++ b)%list
  = string_of_list_ascii a ++ string_of_list_ascii b.
Proof. induction a as [|x a IH]; cbn; [reflexivity | now rewrite IH]. Qed.

Lemma rev_rev (s : string) : rev (rev s) = s.
Proof.
  unfold rev. rewrite list_ascii_of_string_of_list_ascii, rev_involutive.
  apply string_of_list_ascii_of_string.
Qed.

Lemma rev_cons (c : ascii) (s : string) : rev (String c s) = rev s ++ String c "".
Proof.
  unfold rev. cbn [list_ascii_of_string List.rev].
  now rewrite string_of_list_ascii_app.
Qed.

Lemma rev_snoc (s : string) (c : ascii) : rev (s ++ String c "") = String c (rev s).
Proof.
  unfold rev. rewrite list_ascii_of_string_app, rev_app_distr. reflexivity.
Qed.

Lemma trimStart_keeps (c : ascii) (s : string) :
  is_space c = false -> trimStart (String c s) = String c s.
Proof. intros H. cbn [trimStart]. now rewrite H. Qed.

Lemma trimStart_head (s : string) :
  trimStart s = ""
  \/ exists c r, trimStart s = String c r /\ is_space c = false.
Proof.
  induction s as [|c s IH]; [now left|].
  cbn [trimStart]. destruct (is_space c) eqn:E; [exact IH|].
  right. now exists c, s.
Qed.

Lemma trimStart_idempotent (s : string) : trimStart (trimStart s) = trimStart s.
Proof.
  destruct (trimStart_head s) as [->|(c & r & -> & H)]; [reflexivity|].
  now apply trimStart_keeps.
Qed.

Lemma trimStart_snoc (s : string) (c : ascii) :
  is_space c = false -> exists t, trimStart (s ++ String c "") = t ++ String c "".
Proof.
  intros H. induction s as [|x s IH].
  - exists "". cbn [append]. now apply trimStart_keeps.
  - cbn [append trimStart]. destruct (is_space x); [exact IH|].
    now exists (String x s).
Qed.

Lemma trimEnd_idempotent (s : string) : trimEnd (trimEnd s) = trimEnd s.
Proof. unfold trimEnd. now rewrite rev_rev, trimStart_idempotent. Qed.

(** Trimming the end keeps a first character that is not a space. *)
Lemma trimEnd_head (c : ascii) (s : string) :
  is_space c = false -> exists r, trimEnd (String c s) = String c r.
Proof.
  intros H. unfold trimEnd. rewrite rev_cons.
  destruct (trimStart_snoc (rev s) c H) as [t ->].
  rewrite rev_snoc. now exists (rev t).
Qed.

Lemma trimEnd_keeps (s : string) (c : ascii) :
  is_space c = false -> trimEnd (s ++ String c "") = s ++ String c "".
Proof.
  intros H. unfold trimEnd. rewrite rev_snoc, (trimStart_keeps c _ H).
  now rewrite <- rev_snoc, rev_rev.
Qed.

Lemma trim_idempotent (s : string) : trim (trim s) = trim s.
Proof.
  unfold trim.
  destruct (trimStart_head s) as [->|(c & r & -> & H)]; [reflexivity|].
  destruct (trimEnd_head c r H) as [r' E]. rewrite E.
  rewrite (trimStart_keeps c r' H), <- E. apply trimEnd_idempotent.
Qed.

End TrimFacts.

(** ** More on the code block rule *)

Section CodeBlockFacts.
Import JsString Renderer RendererRules Notions.

Lemma trim_keeps (c d : ascii) (m : string) :
  is_space c = false -> is_space d = false ->
  trim (String c (m ++ String d "")) = String c (m ++ String d "").
Proof.
  intros Hc Hd. unfold trim. rewrite (trimStart_keeps c _ Hc).
  change (String c (m ++ String d "")) with (String c m ++ String d "").
  now apply trimEnd_keeps.
Qed.

Lemma fenced_trim (language content : string) :
  trim (Spec.fenced language content) = Spec.fenced language content.
Proof.
  replace (Spec.fenced language content)
    with (String "`" (("``" ++ language ++ nl ++ content ++ nl ++ "``")
                        ++ String "`" "")).
  - now apply trim_keeps.
  - unfold Spec.fenced, fence. rewrite !append_assoc. reflexivity.
Qed.

(** X8.  The output of the rule always begins with a fence marker, and the rule
    is idempotent: applied to its own output, for whatever element, it
    returns that output unchanged, so a block is never fenced twice. *)
Theorem codeBlock_replacement_idempotent (content : string) (node other : Node) :
  startsWith (codeBlock_replacement content node) fence = true
  /\ codeBlock_replacement (codeBlock_replacement content node) other
     = codeBlock_replacement content node.
Proof.
  unfold codeBlock_replacement.
  destruct (startsWith (trim content) fence) eqn:E.
  - split; [exact E|]. now rewrite trim_idempotent, E.
  - fold (Spec.fenced (codeBlock_language node) (trim content)).
    assert (H : startsWith (Spec.fenced (codeBlock_language node) (trim content))
                  fence = true) by apply startsWith_app.
    split; [exact H|]. now rewrite fenced_trim, H.
Qed.

Lemma lacks_suffix (c : ascii) (a b : string) : lacks c (a ++ b) -> lacks c b.
Proof.
  unfold lacks. rewrite list_ascii_of_string_app. intros H Hin.
  apply H, in_or_app. now right.
Qed.

(** X9.  The language tag that the rule reads off an element never holds a
    blank: it is empty or the remainder of one space-separated class
    name. *)
Theorem codeBlock_language_has_no_blank (node : Node) :
  lacks " " (codeBlock_language node).
Proof.
  unfold codeBlock_language.
  destruct (querySelector node) as [el|]; [|intros []].
  destruct (List.find (fun cls => startsWith cls "language-")
                      (split (className el) " ")) as [cls|] eqn:E; [|intros []].
  apply find_some in E as [Hin Hpre].
  apply startsWith_inv in Hpre as [rest ->].
  rewrite replace_prefix.
  apply (lacks_suffix " " "language-" rest).
  exact (split_char_pieces " "%char (className el) _ Hin).
Qed.

(** X10.  No element is claimed by two of the three rules that the renderer
    adds: a [<pre>] is never dropped, and a dropped anchor is not one of
    the dropped tags, so the outcome does not depend on the order in which
    the rules were added. *)
Theorem custom_rules_exclusive (node : Node) :
  (codeBlock_filter node = true ->
   removeAnchorLinks_filter node = false /\ removeElements_filter node = false)
  /\ (removeAnchorLinks_filter node = true -> removeElements_filter node = false).
Proof.
  destruct node as [data | nodeName attributes children].
  - split; intros H; discriminate H.
  - split.
    + cbn [codeBlock_filter]. intros H. apply String.eqb_eq in H. subst nodeName.
      split; reflexivity.
    + cbn [removeAnchorLinks_filter]. intros H.
      apply andb_prop in H as [H _]. apply String.eqb_eq in H. subst nodeName.
      reflexivity.
Qed.

Lemma custom_rules_exclusive_witness :
  removeAnchorLinks_filter Inputs.tsxBlock = false
  /\ removeElements_filter Inputs.tsxBlock = false.
Proof.
  apply (proj1 (custom_rules_exclusive Inputs.tsxBlock)). reflexivity.
Defined.

(** The anchor example of the specification is dropped. *)
Example fragment_anchor_dropped :
  removeAnchorLinks_filter (Element "A" [("href", "#top")] [Text "top"]) = true.
Proof. reflexivity. Qed.

End CodeBlockFacts.

(** ** Summary lines *)

Section SummaryLineFacts.
Import JsString Types Summary Notions.

Lemma lacks_app (c : ascii) (a b : string) :
  lacks c a -> lacks c b -> lacks c (a ++ b).
Proof.
  unfold lacks. rewrite list_ascii_of_string_app. intros Ha Hb Hin.
  apply in_app_or in Hin as [H|H]; [now apply Ha | now apply Hb].
Qed.

Lemma first_line_lacks_nl (text : string) :
  lacks nl_char (hd "" (split text nl)).
Proof.
  change nl with (String nl_char "").
  apply (split_char_pieces nl_char text).
  pose proof (split_char_nonempty nl_char text) as Hne.
  destruct (split text (String nl_char "")); [now destruct Hne | cbn; now left].
Qed.

(** X11.  The line of the summary for an item never spans several lines: of the
    component description only the first line is used, so when the title,
    the base URL and the id hold no line break neither does the line. *)
Theorem itemLine_single_line (summaryBaseUrl : string) (item : StorybookStoreItem) :
  lacks nl_char (title (meta item)) ->
  lacks nl_char summaryBaseUrl ->
  lacks nl_char (id (meta item)) ->
  lacks nl_char (itemLine summaryBaseUrl item).
Proof.
  intros Ht Hb Hi. unfold itemLine. cbv zeta.
  set (description := match meta_docs (meta item) with
                      | Some d => or_empty (description_component d)
                      | None => ""
                      end).
  assert (Hlit : forall s, ~ In nl_char (list_ascii_of_string s) -> lacks nl_char s)
    by (intros s H; exact H).
  repeat apply lacks_app; try assumption;
    try solve [apply Hlit; cbn; intuition discriminate].
  destruct (truthy description) eqn:E.
  - apply lacks_app; [apply Hlit; cbn; intuition discriminate|].
    apply first_line_lacks_nl.
  - unfold truthy in E. apply Bool.negb_false_iff, String.eqb_eq in E.
    rewrite E. intros [].
Qed.

Lemma itemLine_single_line_witness :
  lacks nl_char
    (itemLine "https://example.com"
       (mkItem (mkMeta "components-badge" "Components/Badge" "Badge.stories.tsx"
                       (Some (mkDocs (Some ("A badge." ++ nl ++ "Second line."))
                                     None None))
                       None None)
               (Some []))).
Proof.
  apply itemLine_single_line; unfold lacks; cbn; intuition discriminate.
Defined.

Lemma strip_trailing_slash_cases (url : string) :
  strip_trailing_slash url = url \/ exists v, url = v ++ "/".
Proof.
  induction url as [|c url IH]; [now left|].
  cbn [strip_trailing_slash]. destruct url as [|d url].
  - destruct (Ascii.eqb_spec c "/") as [->|]; [right; now exists "" | now left].
  - destruct IH as [->|(v & ->)]; [now left|].
    right. now exists (String c v).
Qed.

Lemma strip_trailing_slash_app (url : string) :
  strip_trailing_slash (url ++ "/") = url.
Proof.
  induction url as [|c url IH]; [reflexivity|].
  cbn [append strip_trailing_slash]. rewrite IH.
  destruct (url ++ "/") eqn:E; [|reflexivity].
  destruct url; discriminate.
Qed.

(** X12.  A reference given with one trailing slash and the same reference
    given without it produce the same link: exactly one trailing slash of
    the URL is removed before [/llms.txt] is appended. *)
Theorem refLine_trailing_slash (refTitle url : string) :
  refLine (mkRef refTitle (url ++ "/"))
  = "- [" ++ refTitle ++ "](" ++ url ++ "/llms.txt)"
  /\ (endsWith url "/" = false ->
      refLine (mkRef refTitle url)
      = "- [" ++ refTitle ++ "](" ++ url ++ "/llms.txt)").
Proof.
  unfold refLine. cbn [ref_title ref_url]. split.
  - now rewrite strip_trailing_slash_app.
  - intros H. destruct (strip_trailing_slash_cases url) as [->|(v & ->)];
      [reflexivity|].
    unfold endsWith in H. change "/" with (String "/" "") in H at 1.
    rewrite rev_snoc in H. discriminate H.
Qed.

Lemma refLine_trailing_slash_witness :
  refLine (mkRef "Charts" ("https://charts.example.com" ++ "/"))
  = "- [Charts](https://charts.example.com/llms.txt)"
  /\ refLine (mkRef "Charts" "https://charts.example.com")
     = "- [Charts](https://charts.example.com/llms.txt)".
Proof.
  destruct (refLine_trailing_slash "Charts" "https://charts.example.com")
    as [H1 H2].
  split; [exact H1 | apply H2; reflexivity].
Defined.

End SummaryLineFacts.

(** ** More on the registry lookup *)

Section RegistryLookupFacts.
Import JsString Json Registry Notions.

Lemma plookup_set_property_same (k : string) (v : PageValue)
    (props : list (string * PageValue)) :
  plookup k (set_property k v props) = v.
Proof.
  induction props as [|[k' v'] rest IH]; cbn [set_property plookup].
  - now rewrite String.eqb_refl.
  - destruct (String.eqb k k') eqn:E; cbn [plookup].
    + now rewrite String.eqb_refl.
    + now rewrite E.
Qed.

(** X13.  [cacheAllCSFFiles] is awaited before [cachedCSFFiles] is read: when the
    call is what puts the cached files on the store, the lookup returns the
    values of those files, and when the call rejects the lookup rejects
    with the same error. *)
Theorem evaluate_awaits_cacheAllCSFFiles
    (props sprops : list (string * PageValue)) (outcome : Exn.t + JSValue)
    (files : PageValue) :
  isFunction (plookup "extract" props) = false ->
  getStoryStore (PObj props) = ok (PObj sprops) ->
  plookup "cacheAllCSFFiles" sprops = PFun outcome [("cachedCSFFiles", files)] ->
  ptruthy files = true ->
  evaluate (PObj props)
  = match outcome with
    | inr _ => ok (Object_values files)
    | inl e => throw e
    end.
Proof.
  intros Hextract Hstore Hcache Htruthy. unfold evaluate.
  cbn [ptruthy negb pget]. rewrite Hextract, Hstore. cbn [bind ok pget].
  rewrite Hcache. cbn [isFunction call].
  destruct outcome as [e|r]; [reflexivity|].
  cbn [bind ok snd assign fold_left fst pget].
  now rewrite plookup_set_property_same, Htruthy.
Qed.

Lemma evaluate_awaits_cacheAllCSFFiles_witness :
  evaluate
    (PObj [ ("storyStore",
             PObj [ ("cacheAllCSFFiles",
                     PFun (inr VUndefined)
                          [("cachedCSFFiles",
                            PObj [("./Badge.stories.tsx", PObj [])])]) ]) ])
  = ok [PObj []].
Proof.
  apply (evaluate_awaits_cacheAllCSFFiles
           [ ("storyStore",
              PObj [ ("cacheAllCSFFiles",
                      PFun (inr VUndefined)
                           [("cachedCSFFiles",
                             PObj [("./Badge.stories.tsx", PObj [])])]) ]) ]
           [ ("cacheAllCSFFiles",
              PFun (inr VUndefined)
                   [("cachedCSFFiles", PObj [("./Badge.stories.tsx", PObj [])])]) ]
           (inr VUndefined) (PObj [("./Badge.stories.tsx", PObj [])]));
    reflexivity.
Defined.

Lemma same_key_sym (a b : JSValue) : same_key a b = same_key b a.
Proof.
  destruct a, b; cbn; try reflexivity.
  - now destruct b, b0.
  - apply Z.eqb_sym.
  - apply String.eqb_sym.
Qed.

Lemma map_update_keys (key : JSValue) (f : JSValue -> JSValue)
    (m m' : list (JSValue * JSValue)) :
  map_update key f m = Some m' -> map fst m' = map fst m.
Proof.
  revert m'. induction m as [|[k v] rest IH]; intros m' H; [discriminate|].
  cbn [map_update] in H. destruct (same_key key k).
  - inversion H. reflexivity.
  - destruct (map_update key f rest) as [rest'|]; [|discriminate].
    inversion H. cbn. f_equal. now apply IH.
Qed.

Lemma map_update_values (key : JSValue) (f : JSValue -> JSValue)
    (P : JSValue -> JSValue -> Prop) (m m' : list (JSValue * JSValue)) :
  (forall k v, P k v -> P k (f v)) ->
  map_update key f m = Some m' ->
  Forall (fun e => P (fst e) (snd e)) m ->
  Forall (fun e => P (fst e) (snd e)) m'.
Proof.
  intros Hf. revert m'. induction m as [|[k v] rest IH]; intros m' H Hall;
    [discriminate|].
  inversion Hall as [|? ? Hk Hrest]; subst.
  cbn [map_update] in H. destruct (same_key key k).
  - inversion H. constructor; [now apply Hf | exact Hrest].
  - destruct (map_update key f rest) as [rest'|]; [|discriminate].
    inversion H. constructor; [exact Hk | now apply IH].
Qed.

Lemma map_update_none (key : JSValue) (f : JSValue -> JSValue)
    (m : list (JSValue * JSValue)) :
  map_update key f m = None ->
  Forall (fun k => same_key k key = false) (map fst m).
Proof.
  induction m as [|[k v] rest IH]; intros H; [constructor|].
  cbn [map_update] in H. destruct (same_key key k) eqn:E; [discriminate|].
  destruct (map_update key f rest); [discriminate|].
  constructor; [now rewrite same_key_sym | now apply IH].
Qed.

Lemma distinctKeys_snoc (keys : list JSValue) (key : JSValue) :
  distinctKeys keys ->
  Forall (fun k => same_key k key = false) keys ->
  distinctKeys (keys ++ [key]).
Proof.
  unfold distinctKeys. induction 1 as [|k keys Hk _ IH]; intros Hall.
  - repeat constructor.
  - inversion Hall as [|? ? Hkey Hrest]; subst.
    cbn [app]. constructor; [|now apply IH].
    apply Forall_app. split; [exact Hk | now constructor].
Qed.

Lemma lookup_set_property_other (k k' : string) (v : JSValue)
    (props : list (string * JSValue)) :
  String.eqb k k' = false -> lookup k (set_property k' v props) = lookup k props.
Proof.
  intros Hne. induction props as [|[k0 v0] rest IH]; cbn [set_property lookup].
  - now rewrite Hne.
  - destruct (String.eqb k' k0) eqn:E; cbn [lookup].
    + apply String.eqb_eq in E. subst k0. now rewrite Hne.
    + now rewrite IH.
Qed.

Lemma addStory_meta (item story : JSValue) :
  get (addStory item story) "meta" = get item "meta".
Proof.
  unfold addStory. destruct item as [ | | | | | |props]; try reflexivity.
  destruct (lookup "stories" props); try reflexivity.
  cbn [get]. now apply lookup_set_property_other.
Qed.

Lemma groupStory_grouped (m m' : list (JSValue * JSValue)) (story : JSValue) :
  groupStory m story = ok m' -> grouped m -> grouped m'.
Proof.
  unfold groupStory. destruct (nullish story); [discriminate|].
  intros H [Hkeys Hids].
  assert (Hstep : forall componentId,
             match map_update componentId (fun item => addStory item story) m with
             | Some updated => ok updated
             | None =>
                 ok (m ++ [(componentId,
                            addStory (newComponentItem componentId story) story)])%list
             end = ok m' -> grouped m').
  { intros componentId Hm.
    destruct (map_update componentId (fun item => addStory item story) m)
      as [updated|] eqn:E; inversion Hm; subst; split.
    - now rewrite (map_update_keys _ _ _ _ E).
    - apply (map_update_values componentId (fun item => addStory item story)
               (fun k v => get (get v "meta") "id" = k) m); try assumption.
      intros k v Hv. now rewrite addStory_meta.
    - rewrite map_app. apply distinctKeys_snoc; [exact Hkeys|].
      now apply (map_update_none _ _ _ E).
    - apply Forall_app. split; [exact Hids|]. constructor; [|constructor].
      reflexivity. }
  destruct (truthy (get story "componentId")).
  - cbn [bind ok] in H. now apply (Hstep _ H).
  - destruct (idPrefix (get story "id")) as [e|prefix]; [discriminate|].
    cbn [bind ok] in H. now apply (Hstep _ H).
Qed.

Lemma groupStories_grouped (stories : list JSValue)
    (m m' : list (JSValue * JSValue)) :
  groupStories m stories = ok m' -> grouped m -> grouped m'.
Proof.
  revert m. induction stories as [|story rest IH]; intros m H Hm.
  - inversion H. now subst.
  - cbn [groupStories] in H.
    destruct (groupStory m story) as [e|m1] eqn:E; [discriminate|].
    cbn [bind] in H. apply (IH m1 H). now apply (groupStory_grouped m m1 story).
Qed.

(** X14.  When the registry has an [extract] function, the items that the
    lookup returns have pairwise different [meta.id]s: the stories are
    grouped so that there is one item per component. *)
Theorem evaluate_extract_one_item_per_component (preview : PageValue)
    (items : list PageValue) :
  isFunction (pget preview "extract") = true ->
  evaluate preview = ok items ->
  distinctKeys (map metaId items).
Proof.
  intros Hf. unfold evaluate.
  destruct (ptruthy preview); [|discriminate]. cbn [negb]. rewrite Hf.
  destruct (call (pget preview "extract") preview) as [e|r]; [discriminate|].
  cbn [bind]. destruct (nullish (fst r)); [discriminate|].
  destruct (groupStories [] (data_values (fst r))) as [e|m] eqn:E; [discriminate|].
  cbn [bind]. intros H. inversion H; subst.
  destruct (groupStories_grouped _ _ _ E) as [Hkeys Hids].
  { split; constructor. }
  rewrite map_map.
  replace (map (fun entry => metaId (PData (snd entry))) m) with (map fst m);
    [exact Hkeys|].
  clear -Hids. induction Hids as [|e m He _ IH]; [reflexivity|].
  cbn [map metaId]. now rewrite He, IH.
Qed.

Lemma evaluate_extract_one_item_per_component_witness :
  exists items,
    evaluate MoreInputs.previewWithExtract = ok items
    /\ map metaId items = [VStr "button"; VStr "card"]
    /\ distinctKeys (map metaId items).
Proof.
  eexists. split; [reflexivity|]. split; [reflexivity|].
  apply (evaluate_extract_one_item_per_component MoreInputs.previewWithExtract);
    reflexivity.
Defined.

End RegistryLookupFacts.

(** ** Subcomponents without doc metadata *)

Section SubcomponentFacts.
Import JsString Json Types Generators Notions.

Lemma subcomponentLines_undocumented
    (subs : list (string * option StorybookComponent)) :
  Forall undocumented subs ->
  mapM subcomponentLines subs = ok (map (fun _ => []) subs).
Proof.
  induction 1 as [|[name sub] subs Hsub _ IH]; [reflexivity|].
  cbn [mapM map]. rewrite IH.
  unfold undocumented in Hsub. cbn [snd] in Hsub. unfold subcomponentLines.
  destruct sub as [sub|]; [rewrite Hsub|]; reflexivity.
Qed.

Lemma concat_empty_lists {A B : Type} (xs : list A) :
  List.concat (map (fun _ => @nil B) xs) = [].
Proof. induction xs as [|x xs IH]; [reflexivity | exact IH]. Qed.

(** X15.  A subcomponents mapping that is present makes the generator emit the
    Subcomponents heading even when no subcomponent carries doc metadata
    (or the mapping is empty): the heading is then followed directly by
    the Examples section. *)
Theorem subcomponents_heading_without_entries (item : StorybookStoreItem)
    (entries : list (string * Story))
    (subs : list (string * option StorybookComponent)) :
  stories item = Some entries ->
  ~ Spec.prosePageItem (map snd entries) ->
  subcomponents (meta item) = Some subs ->
  Forall undocumented subs ->
  extractComponentProps (component (meta item)) = [] ->
  generateFullFileContentFromStory item
  = ok (("# " ++ title (meta item)) :: ""
          :: (match extractStoryDescription item with
              | Some text => [text; ""]
              | None => []
              end
              ++ "## Subcomponents" :: ""
              :: "## Examples" :: "" :: flat_map exampleLines (map snd entries))%list).
Proof.
  intros Hs Hp Hsubs Hbare Hprops. unfold generateFullFileContentFromStory.
  rewrite Hs. cbn [Object_values bind ok].
  rewrite (not_prosePageItem_forallb _ Hp), Hprops, Hsubs.
  rewrite (subcomponentLines_undocumented subs Hbare). cbn [bind ok].
  rewrite concat_empty_lists. unfold examplesSection.
  destruct (map snd entries) as [|s rest] eqn:E.
  - exfalso. now apply (not_prosePageItem_nonempty _ Hp).
  - reflexivity.
Qed.

Lemma subcomponents_heading_without_entries_witness :
  generateFullFileContentFromStory MoreInputs.itemWithBareSubcomponent
  = ok [ "# Components/Menu"; ""; "## Subcomponents"; "";
         "## Examples"; ""; ""; "### Default"; "" ].
Proof.
  apply (subcomponents_heading_without_entries MoreInputs.itemWithBareSubcomponent
           _ [("MenuItem", Some (mkComponent None))] eq_refl).
  - intros H. inversion H as [|s l Hd Hl]. discriminate Hd.
  - reflexivity.
  - repeat constructor.
  - reflexivity.
Defined.

End SubcomponentFacts.

(** ** Per-item HTML *)

Section HtmlFacts.
Import JsString Json Types Generators Html Notions.





End HtmlFacts.

Section HtmlTextFacts.
Import JsString Json Types Generators Html Notions.

Variable convertMarkdownToHtml : string -> string.

Lemma returns_ok {A : Type} (a : A) : returns (ok a).
Proof. now exists a. Qed.

Lemma returns_bind {A B : Type} (m : result A) (k : A -> result B) :
  (forall a, returns (k a)) -> (returns (bind m k) <-> returns m).
Proof.
  intros Hk. destruct m as [e|a]; cbn [bind].
  - split; intros [x H]; discriminate H.
  - split; intros _; [apply returns_ok | apply Hk].
Qed.

Lemma returns_mapM {A B : Type} (f : A -> result B) (xs : list A) :
  returns (mapM f xs) <-> Forall (fun x => returns (f x)) xs.
Proof.
  induction xs as [|x xs IH]; cbn [mapM].
  - split; intros _; [constructor | apply returns_ok].
  - destruct (f x) as [e|y] eqn:E; cbn [bind].
    + split.
      * intros [ys H]. discriminate H.
      * intros H. inversion H as [|? ? [y Hy] _]; subst. rewrite E in Hy.
        discriminate Hy.
    + rewrite (returns_bind (mapM f xs)) by (intros; apply returns_ok).
      rewrite IH. split.
      * intros H. constructor; [rewrite E; apply returns_ok | exact H].
      * intros H. now inversion H.
Qed.

Lemma returns_mapM_iff {A B C : Type} (f : A -> result B) (g : A -> result C)
    (xs : list A) :
  (forall x, returns (f x) <-> returns (g x)) ->
  (returns (mapM f xs) <-> returns (mapM g xs)).
Proof.
  intros H. rewrite !returns_mapM. split; intros Hall;
    (eapply Forall_impl; [|exact Hall]); intros x Hx; now apply H.
Qed.

Lemma returns_row (prop : StorybookComponentProp) :
  returns (tableRow prop) <-> returns (htmlRow prop).
Proof.
  unfold tableRow, htmlRow.
  rewrite !returns_bind by (intros; apply returns_ok). reflexivity.
Qed.

Lemma returns_table (heading : string) (props : list StorybookComponentProp) :
  returns (generateComponentPropsTable props) <-> returns (htmlPropsTable heading props).
Proof.
  unfold generateComponentPropsTable, htmlPropsTable.
  destruct props as [|prop rest].
  - split; intros _; apply returns_ok.
  - rewrite !returns_bind by (intros; apply returns_ok).
    apply returns_mapM_iff, returns_row.
Qed.

Lemma returns_subcomponent (entry : string * option StorybookComponent) :
  returns (subcomponentLines entry) <-> returns (htmlSubcomponent entry).
Proof.
  unfold subcomponentLines, htmlSubcomponent. destruct entry as [name [sub|]];
    cbn [snd fst]; [|split; intros _; apply returns_ok].
  destruct (__docgenInfo sub) as [docgen|]; [|split; intros _; apply returns_ok].
  rewrite !returns_bind by (intros; apply returns_ok).
  rewrite <- (returns_table _ (extractComponentProps (Some sub))).
  destruct (extractComponentProps (Some sub)) as [|prop rest] eqn:E.
  - split; intros _; apply returns_ok.
  - now rewrite returns_bind by (intros; apply returns_ok).
Qed.

(** X17.  The two per-item generators throw on the same items: the HTML page of
    an item is generated exactly when its plain text is, so
    [writeFullDocsFiles] never has the text of an item to write and then
    fails to generate its page. *)
Theorem html_generated_iff_text_generated (item : StorybookStoreItem) :
  returns (generateFullFileContentFromStory item)
  <-> returns (generateFullFileHtmlContentFromStory convertMarkdownToHtml item).
Proof.
  unfold generateFullFileContentFromStory, generateFullFileHtmlContentFromStory.
  destruct (Object_values (stories item)) as [e|variants]; cbn [bind].
  - split; intros [x H]; discriminate H.
  - rewrite (returns_bind (htmlBody convertMarkdownToHtml item variants))
      by (intros; apply returns_ok).
    unfold htmlBody. destruct (forallb isDocsOnly variants).
    + split; intros _; [|apply returns_ok].
      destruct (JsString.truthy _); apply returns_ok.
    + set (props := extractComponentProps (component (meta item))).
      assert (Hprops :
                returns (match props with
                         | [] => ok []
                         | _ :: _ =>
                             table <- generateComponentPropsTable props ;;
                             ok (["## Props"; ""] ++ table ++ [""])%list
                         end)
                <-> returns (htmlPropsTable "  <h2>Props</h2>" props)).
      { rewrite <- (returns_table _ props). destruct props as [|prop rest].
        - split; intros _; apply returns_ok.
        - now rewrite returns_bind by (intros; apply returns_ok). }
      assert (Hsubs :
                returns (match subcomponents (meta item) with
                         | Some entries =>
                             sections <- mapM subcomponentLines entries ;;
                             ok (["## Subcomponents"; ""] ++ List.concat sections)%list
                         | None => ok []
                         end)
                <-> returns (match subcomponents (meta item) with
                             | Some entries =>
                                 sections <- mapM htmlSubcomponent entries ;;
                                 ok ("  <h2>Subcomponents</h2>" :: List.concat sections)
                             | None => ok []
                             end)).
      { destruct (subcomponents (meta item)) as [entries|];
          [|split; intros _; apply returns_ok].
        rewrite !returns_bind by (intros; apply returns_ok).
        apply returns_mapM_iff, returns_subcomponent. }
      destruct (match props with [] => ok [] | _ :: _ => _ end) as [e1|t1];
        destruct (htmlPropsTable "  <h2>Props</h2>" props) as [e2|t2]; cbn [bind];
        try (split; intros [x H]; discriminate H);
        try (exfalso; destruct Hprops as [H1 H2];
             first [destruct (H1 (returns_ok _)) as [x Hx]; discriminate Hx
                   | destruct (H2 (returns_ok _)) as [x Hx]; discriminate Hx]).
      rewrite !returns_bind by (intros; apply returns_ok). exact Hsubs.
Qed.

End HtmlTextFacts.


Lemma html_generated_iff_text_generated_witness :
  Notions.returns
    (Html.generateFullFileHtmlContentFromStory (fun markdown => markdown)
       Inputs.plainComponent).
Proof.
  apply (proj1 (html_generated_iff_text_generated (fun markdown => markdown)
                  Inputs.plainComponent)).
  eexists. reflexivity.
Defined.

(** The ampersand is left as it is, so different sources can give the
    same escaped text. *)
Example escapeSource_not_injective :
  Html.escapeSource "a < b" = Html.escapeSource "a &lt; b".
Proof. reflexivity. Qed.
